(** * Dataset analysis of the user dashboard

    A shallow embedding of the client-side analysis routines of the user
    dashboard component: [analyzeDataStructure] (field inference),
    [applyFilters] (date-range filter), [generateChartData] (totals, time
    series and category distribution), [handleDataSetChange] and the
    handlers that edit the selection; of the pagination and the user list
    of the data-set administration page; and of the breadcrumbs of the
    banner.

    Modelling conventions.
    - A JSON scalar is a [JS.value].  Numbers are the integers [Z]: the
      fractional part and the rounding of IEEE doubles are outside the
      model, as are [NaN] and the infinities (JSON cannot carry them).
    - A JavaScript object is an association list in property-creation
      order; [JS.own_entries] gives the order in which [Object.keys] and
      [Object.entries] enumerate it.  Only own properties are modelled:
      the prototype chain (names such as [__proto__]) is not.
    - [useState] cells are the fields of one [state] record; a callback is
      a function from the state it closes over to the state it writes.
    - What the host decides (string-to-date parsing, the time zone) is a
      section variable. *)

From Stdlib Require Import ZArith NArith List String Ascii Bool Lia.
From Stdlib Require Import Sorting.Sorted Sorting.Permutation.
From Stdlib Require Import Numbers.DecimalString.
Import ListNotations.

Open Scope string_scope.
Open Scope list_scope.
Open Scope Z_scope.

(* ===================================================================== *)
(** ** The fragment of JavaScript the component relies on *)
(* ===================================================================== *)

Module JS.

(** [string | number | boolean | null | undefined], the value type of a
    [DataPoint]. *)
Inductive value : Type :=
| VUndefined
| VNull
| VBool (b : bool)
| VNum (n : Z)
| VStr (s : string).

Definition value_eq_dec (a b : value) : {a = b} + {a <> b}.
Proof.
  decide equality.
  - apply bool_dec.
  - apply Z.eq_dec.
  - apply string_dec.
Defined.

(** Equality used by [Set] (SameValueZero); on this value type it is plain
    equality. *)
Definition same_value_zero (a b : value) : bool :=
  if value_eq_dec a b then true else false.

(** [typeof v === "number"] and [typeof v === "boolean"]. *)
Definition is_number (v : value) : bool :=
  match v with VNum _ => true | _ => false end.

Definition is_boolean (v : value) : bool :=
  match v with VBool _ => true | _ => false end.

(** [v !== null && v !== undefined]. *)
Definition is_present (v : value) : bool :=
  match v with VUndefined | VNull => false | _ => true end.

(** ToBoolean. *)
Definition truthy (v : value) : bool :=
  match v with
  | VUndefined | VNull => false
  | VBool b => b
  | VNum n => negb (n =? 0)
  | VStr s => negb (s =? "")%string
  end.

(** Number::toString on an integer. *)
Definition number_to_string (n : Z) : string :=
  NilZero.string_of_int (Z.to_int n).

(** [String(v)]. *)
Definition to_string (v : value) : string :=
  match v with
  | VUndefined => "undefined"
  | VNull => "null"
  | VBool true => "true"
  | VBool false => "false"
  | VNum n => number_to_string n
  | VStr s => s
  end.

(** [a || b]. *)
Definition or_else (a b : value) : value := if truthy a then a else b.

(** *** Strings *)

Definition lower_ascii (c : ascii) : ascii :=
  let n := nat_of_ascii c in
  if ((65 <=? n)%nat && (n <=? 90)%nat)%bool then ascii_of_nat (n + 32) else c.

(** [s.toLowerCase()].  Strings are byte strings; only the ASCII capitals
    are mapped, which is all that the search for ["date"] can observe: no
    character outside ASCII lower-cases to one of [d], [a], [t], [e]. *)
Fixpoint toLowerCase (s : string) : string :=
  match s with
  | EmptyString => EmptyString
  | String c s' => String (lower_ascii c) (toLowerCase s')
  end.

(** [hay.includes(needle)]. *)
Fixpoint includes (needle hay : string) : bool :=
  if String.prefix needle hay then true
  else match hay with
       | EmptyString => false
       | String _ hay' => includes needle hay'
       end.

Definition is_digit (c : ascii) : bool :=
  let n := nat_of_ascii c in ((48 <=? n)%nat && (n <=? 57)%nat)%bool.

Definition is_dash (c : ascii) : bool := Ascii.eqb c "-"%char.

(** [s.match(/^\d{4}-\d{2}-\d{2}/)] is not [null]. *)
Definition matches_iso_prefix (s : string) : bool :=
  match s with
  | String y1 (String y2 (String y3 (String y4 (String d1
      (String m1 (String m2 (String d2 (String a1 (String a2 _))))))))) =>
      is_digit y1 && is_digit y2 && is_digit y3 && is_digit y4 && is_dash d1
      && is_digit m1 && is_digit m2 && is_dash d2 && is_digit a1 && is_digit a2
  | _ => false
  end.

(** *** Ordinary objects used as string-keyed maps *)

Section Objects.
Context {V : Type}.

(** Own properties, oldest first.  When a name is bound twice the first
    binding is the property. *)
Definition obj : Type := list (string * V).

Fixpoint get (o : obj) (k : string) : option V :=
  match o with
  | [] => None
  | (k', v) :: o' => if (k' =? k)%string then Some v else get o' k
  end.

(** [o[k] = v]: overwrite in place, or create the property at the end. *)
Fixpoint set (k : string) (v : V) (o : obj) : obj :=
  match o with
  | [] => [(k, v)]
  | (k', v') :: o' =>
      if (k' =? k)%string then (k', v) :: o' else (k', v') :: set k v o'
  end.

(** The properties without the shadowed bindings. *)
Fixpoint props_from (seen : list string) (o : obj) : obj :=
  match o with
  | [] => []
  | (k, v) :: o' =>
      if existsb (String.eqb k) seen then props_from seen o'
      else (k, v) :: props_from (k :: seen) o'
  end.

Definition props (o : obj) : obj := props_from [] o.

Fixpoint insert_by_index (i : N) (p : string * V)
         (l : list (N * (string * V))) : list (N * (string * V)) :=
  match l with
  | [] => [(i, p)]
  | (j, q) :: l' =>
      if (i <? j)%N then (i, p) :: (j, q) :: l'
      else (j, q) :: insert_by_index i p l'
  end.
End Objects.

Arguments obj : clear implicits.

(** Decimal value of a digit string. *)
Fixpoint digits_value (s : string) (acc : N) : option N :=
  match s with
  | EmptyString => Some acc
  | String c s' =>
      if is_digit c
      then digits_value s' (acc * 10 + N.of_nat (nat_of_ascii c - 48))%N
      else None
  end.

(** A property name is an array index when it is the canonical decimal
    form of an integer in [0, 2^32 - 2]. *)
Definition array_index (k : string) : option N :=
  match k with
  | EmptyString => None
  | String c rest =>
      if (Ascii.eqb c "0"%char && negb (rest =? "")%string)%bool then None
      else match digits_value k 0%N with
           | Some n => if (n <=? 4294967294)%N then Some n else None
           | None => None
           end
  end.

Section Enumeration.
Context {V : Type}.

Fixpoint index_props (o : obj V) : list (N * (string * V)) :=
  match o with
  | [] => []
  | (k, v) :: o' =>
      match array_index k with
      | Some i => insert_by_index i (k, v) (index_props o')
      | None => index_props o'
      end
  end.

Definition is_named (p : string * V) : bool :=
  match array_index (fst p) with
  | Some _ => false
  | None => true
  end.

Definition named_props (o : obj V) : obj V := filter is_named o.

(** OrdinaryOwnPropertyKeys: array indices in ascending numeric order,
    then the other names in creation order.  This is the order of
    [Object.keys] and [Object.entries]. *)
Definition own_entries (o : obj V) : list (string * V) :=
  map snd (index_props (props o)) ++ named_props (props o).

Definition own_keys (o : obj V) : list string := map fst (own_entries o).
End Enumeration.

(** *** [Set] and arrays *)

(** [new Set(values)] spread back into an array: the distinct values in
    the order in which they were first added. *)
Fixpoint set_from (seen : list value) (vs : list value) : list value :=
  match vs with
  | [] => []
  | v :: vs' =>
      if existsb (same_value_zero v) seen then set_from seen vs'
      else v :: set_from (v :: seen) vs'
  end.

Definition Set_of (vs : list value) : list value := set_from [] vs.

(** [a.slice(0, n)]. *)
Definition slice0 {A} (n : nat) (a : list A) : list A := firstn n a.

Section Sort.
Context {A : Type}.
(** The comparator's result, [NaN] already replaced by [+0]. *)
Variable cmp : A -> A -> Z.

Fixpoint sort_insert (x : A) (l : list A) : list A :=
  match l with
  | [] => [x]
  | y :: l' => if cmp x y <=? 0 then x :: y :: l' else y :: sort_insert x l'
  end.

(** [Array.prototype.sort(cmp)], a stable sort: an element is placed in
    front of the first later element that does not order before it.  For a
    comparator that orders consistently every stable sort returns this
    array; for one that does not (a [NaN] key) the language leaves the
    order to the engine, and this is the order of an insertion sort. *)
Fixpoint Array_sort (l : list A) : list A :=
  match l with
  | [] => []
  | x :: l' => sort_insert x (Array_sort l')
  end.
End Sort.

(** Statement completion: a call returns or throws. *)
Inductive completion (A : Type) : Type :=
| Normal (a : A)
| Throw (error : string).
Arguments Normal {A} a.
Arguments Throw {A} error.

(** [Object.keys(x)] where [x] may be [undefined]. *)
Definition Object_keys {V} (x : option (obj V)) : completion (list string) :=
  match x with
  | Some o => Normal (own_keys o)
  | None => Throw "TypeError: Cannot convert undefined or null to object"
  end.

End JS.

(* ===================================================================== *)
(** ** Time values and the calendar of [Date] *)
(* ===================================================================== *)

Module DateTime.

(** A time value is a number of milliseconds since the epoch; [None] is
    the time value [NaN] of an invalid [Date]. *)
Definition time_value : Type := option Z.

Definition msPerDay : Z := 86400000.

Definition Day (t : Z) : Z := t / msPerDay.
Definition TimeWithinDay (t : Z) : Z := t mod msPerDay.

Definition is_leap (y : Z) : bool :=
  if negb (y mod 4 =? 0) then false
  else if negb (y mod 100 =? 0) then true
  else if negb (y mod 400 =? 0) then false
  else true.

Definition DaysInYear (y : Z) : Z := if is_leap y then 366 else 365.

Definition DayFromYear (y : Z) : Z :=
  365 * (y - 1970) + (y - 1969) / 4 - (y - 1901) / 100 + (y - 1601) / 400.

(** The year that contains day number [d]: the largest [y] with
    [DayFromYear y <= d], found from an estimate that is off by at most
    one. *)
Definition YearFromDay (d : Z) : Z :=
  let y := 1970 + (d * 400) / 146097 in
  if d <? DayFromYear y then y - 1
  else if DayFromYear (y + 1) <=? d then y + 1
  else y.

Definition YearFromTime (t : Z) : Z := YearFromDay (Day t).
Definition InLeapYear (t : Z) : Z := if is_leap (YearFromTime t) then 1 else 0.
Definition DayWithinYear (t : Z) : Z := Day t - DayFromYear (YearFromTime t).

(** Day within the year on which month [m] (0 = January) starts. *)
Definition month_start (m leap : Z) : Z :=
  match m with
  | 0 => 0
  | 1 => 31
  | 2 => 59 + leap
  | 3 => 90 + leap
  | 4 => 120 + leap
  | 5 => 151 + leap
  | 6 => 181 + leap
  | 7 => 212 + leap
  | 8 => 243 + leap
  | 9 => 273 + leap
  | 10 => 304 + leap
  | _ => 334 + leap
  end.

Definition MonthFromTime (t : Z) : Z :=
  let d := DayWithinYear t in
  let leap := InLeapYear t in
  if d <? 31 then 0
  else if d <? 59 + leap then 1
  else if d <? 90 + leap then 2
  else if d <? 120 + leap then 3
  else if d <? 151 + leap then 4
  else if d <? 181 + leap then 5
  else if d <? 212 + leap then 6
  else if d <? 243 + leap then 7
  else if d <? 273 + leap then 8
  else if d <? 304 + leap then 9
  else if d <? 334 + leap then 10
  else 11.

Definition DateFromTime (t : Z) : Z :=
  DayWithinYear t + 1 - month_start (MonthFromTime t) (InLeapYear t).

(** MakeDay: the day number of day [date] of month [month] of [year];
    months and days outside their range carry over. *)
Definition MakeDay (year month date : Z) : Z :=
  let ym := year + month / 12 in
  let mn := month mod 12 in
  DayFromYear ym + month_start mn (if is_leap ym then 1 else 0) + date - 1.

Definition MakeDate (day time : Z) : Z := day * msPerDay + time.

Section Local.
(** Offset of local time from UTC in milliseconds, taken constant over
    the period a filter looks back. *)
Variable LocalTZA : Z.

Definition LocalTime (t : Z) : Z := t + LocalTZA.
Definition UTC (t : Z) : Z := t - LocalTZA.

Definition getDate (t : Z) : Z := DateFromTime (LocalTime t).
Definition getFullYear (t : Z) : Z := YearFromTime (LocalTime t).

(** [d.setDate(dt)], the new time value of [d].  Clock readings are far
    from the ends of the representable range, so TimeClip is omitted. *)
Definition setDate (t dt : Z) : Z :=
  let l := LocalTime t in
  UTC (MakeDate (MakeDay (YearFromTime l) (MonthFromTime l) dt)
                (TimeWithinDay l)).

(** [d.setFullYear(y)]. *)
Definition setFullYear (t y : Z) : Z :=
  let l := LocalTime t in
  UTC (MakeDate (MakeDay y (MonthFromTime l) (DateFromTime l))
                (TimeWithinDay l)).

Definition month_abbr (m : Z) : string :=
  match m with
  | 0 => "Jan" | 1 => "Feb" | 2 => "Mar" | 3 => "Apr"
  | 4 => "May" | 5 => "Jun" | 6 => "Jul" | 7 => "Aug"
  | 8 => "Sep" | 9 => "Oct" | 10 => "Nov" | _ => "Dec"
  end.

Definition two_digits (n : Z) : string :=
  (JS.number_to_string (n / 10 mod 10) ++ JS.number_to_string (n mod 10))%string.

(** Year of the era: year 0 is 1 BC. *)
Definition year_of_era (y : Z) : Z := if y <=? 0 then 1 - y else y.

(** [d.toLocaleDateString("en-US", { month: "short", year: "2-digit" })]:
    the pattern is [MMM yy] in local time, and an invalid date renders as
    ["Invalid Date"]. *)
Definition toLocaleDateString_short_month_year (d : time_value) : string :=
  match d with
  | None => "Invalid Date"
  | Some t =>
      let l := LocalTime t in
      (month_abbr (MonthFromTime l) ++ " "
         ++ two_digits (year_of_era (YearFromTime l)))%string
  end.
End Local.

(** [a >= b] and [a <= b] on [Date] objects: numeric comparison of the time
    values, false when either is [NaN]. *)
Definition date_ge (a b : time_value) : bool :=
  match a, b with
  | Some x, Some y => y <=? x
  | _, _ => false
  end.

Definition date_le (a b : time_value) : bool :=
  match a, b with
  | Some x, Some y => x <=? y
  | _, _ => false
  end.

(** [a.getTime() - b.getTime()] as a sort comparator result: [NaN] counts
    as [+0]. *)
Definition time_difference (a b : time_value) : Z :=
  match a, b with
  | Some x, Some y => x - y
  | _, _ => 0
  end.

End DateTime.

(* ===================================================================== *)
(** ** The dashboard component *)
(* ===================================================================== *)

Module Dashboard.

(** [interface DataPoint { [key: string]: string | number | boolean | null | undefined }] *)
Definition DataPoint : Type := JS.obj JS.value.

(** [item[key]]: an absent property reads as [undefined]. *)
Definition item_get (item : DataPoint) (key : string) : JS.value :=
  match JS.get item key with
  | Some v => v
  | None => JS.VUndefined
  end.

Inductive FieldType : Type := TString | TNumber | TDate | TBoolean.

Definition FieldType_eqb (a b : FieldType) : bool :=
  match a, b with
  | TString, TString | TNumber, TNumber | TDate, TDate | TBoolean, TBoolean => true
  | _, _ => false
  end.

Record FieldInfo : Type := mkField {
  name : string;
  type : FieldType;
  values : list JS.value
}.

Record LinePoint : Type := mkPoint { x : string; y : Z }.

Record PieSegment : Type := mkSegment {
  pie_name : string;
  pie_value : Z;
  pie_color : string
}.

Record ChartData : Type := mkChart {
  lineChart : list LinePoint;
  pieChart : list PieSegment;
  metrics : JS.obj Z;
  categories : list string
}.

Definition COLORS : list string :=
  ["#ef4444"; "#10b981"; "#8b5cf6"; "#f59e0b";
   "#06b6d4"; "#ec4899"; "#84cc16"; "#f97316"].

Definition empty_chart : ChartData :=
  {| lineChart := []; pieChart := []; metrics := []; categories := [] |}.

(** The [useState] cells of the component that the analysis reads or
    writes. *)
Record state : Type := mkState {
  selectedDataSet : string;
  selectedDateRange : string;
  selectedMetrics : list string;
  selectedDimensions : list string;
  rawData : list DataPoint;
  filteredData : list DataPoint;
  chartData : ChartData;
  availableFields : list FieldInfo
}.

Definition initial_state : state :=
  {| selectedDataSet := ""; selectedDateRange := ""; selectedMetrics := [];
     selectedDimensions := []; rawData := []; filteredData := [];
     chartData := empty_chart; availableFields := [] |}.

Definition setSelectedDataSet (v : string) (st : state) : state :=
  mkState v (selectedDateRange st) (selectedMetrics st) (selectedDimensions st)
          (rawData st) (filteredData st) (chartData st) (availableFields st).

Definition setSelectedDateRange (v : string) (st : state) : state :=
  mkState (selectedDataSet st) v (selectedMetrics st) (selectedDimensions st)
          (rawData st) (filteredData st) (chartData st) (availableFields st).

Definition setSelectedMetrics (v : list string) (st : state) : state :=
  mkState (selectedDataSet st) (selectedDateRange st) v (selectedDimensions st)
          (rawData st) (filteredData st) (chartData st) (availableFields st).

Definition setSelectedDimensions (v : list string) (st : state) : state :=
  mkState (selectedDataSet st) (selectedDateRange st) (selectedMetrics st) v
          (rawData st) (filteredData st) (chartData st) (availableFields st).

Definition setRawData (v : list DataPoint) (st : state) : state :=
  mkState (selectedDataSet st) (selectedDateRange st) (selectedMetrics st)
          (selectedDimensions st) v (filteredData st) (chartData st)
          (availableFields st).

Definition setFilteredData (v : list DataPoint) (st : state) : state :=
  mkState (selectedDataSet st) (selectedDateRange st) (selectedMetrics st)
          (selectedDimensions st) (rawData st) v (chartData st)
          (availableFields st).

Definition setChartData (v : ChartData) (st : state) : state :=
  mkState (selectedDataSet st) (selectedDateRange st) (selectedMetrics st)
          (selectedDimensions st) (rawData st) (filteredData st) v
          (availableFields st).

Definition setAvailableFields (v : list FieldInfo) (st : state) : state :=
  mkState (selectedDataSet st) (selectedDateRange st) (selectedMetrics st)
          (selectedDimensions st) (rawData st) (filteredData st) (chartData st) v.

(** The memoized field lists. *)
Definition is_numeric_field (f : FieldInfo) : bool := FieldType_eqb (type f) TNumber.

Definition is_dimension_field (f : FieldInfo) : bool :=
  FieldType_eqb (type f) TString
  && (List.length (values f) <? 20)%nat && (1 <? List.length (values f))%nat.

Definition is_date_field (f : FieldInfo) : bool := FieldType_eqb (type f) TDate.

Definition numericFields (st : state) : list FieldInfo :=
  filter is_numeric_field (availableFields st).

Definition stringFields (st : state) : list FieldInfo :=
  filter is_dimension_field (availableFields st).

Definition dateFields (st : state) : list FieldInfo :=
  filter is_date_field (availableFields st).

(** [typeof value === "number" ? value : 0]. *)
Definition number_or_zero (v : JS.value) : Z :=
  match v with
  | JS.VNum n => n
  | _ => 0
  end.

(** A string used as a condition: [undefined] and [""] are falsy. *)
Definition present_name (s : option string) : bool :=
  match s with
  | Some k => negb (k =? "")%string
  | None => false
  end.

Fixpoint map_indexed {A B} (f : A -> nat -> B) (i : nat) (l : list A) : list B :=
  match l with
  | [] => []
  | a :: l' => f a i :: map_indexed f (S i) l'
  end.

Section Host.
(** [new Date(s).getTime()], the host's date parser. *)
Variable Date_parse : string -> DateTime.time_value.
(** The host's offset of local time from UTC. *)
Variable LocalTZA : Z.

Definition isValidDate (value : JS.value) : bool :=
  match value with
  | JS.VStr s =>
      match Date_parse s with
      | Some _ => JS.matches_iso_prefix s
      | None => false
      end
  | _ => false
  end.

(** The non-null values of one field across the records. *)
Definition field_values (data : list DataPoint) (key : string) : list JS.value :=
  filter JS.is_present (map (fun item => item_get item key) data).

Definition detect_type (key : string) (vals : list JS.value) : FieldType :=
  if forallb JS.is_number vals then TNumber
  else if forallb JS.is_boolean vals then TBoolean
  else if JS.includes "date" (JS.toLowerCase key)
          || isValidDate (hd JS.VUndefined vals)
  then TDate
  else TString.

(** The body of the [forEach] over the keys of the first record. *)
Definition analyze_key (data : list DataPoint) (fields : list FieldInfo)
           (key : string) : list FieldInfo :=
  let vals := field_values data key in
  if (List.length vals =? 0)%nat then fields
  else
    let uniqueValues := JS.Set_of vals in
    fields ++ [ {| name := key;
                   type := detect_type key vals;
                   values := JS.slice0 50 uniqueValues |} ].

Definition analyzeDataStructure (data : list DataPoint) (st : state)
  : JS.completion state :=
  if (List.length data =? 0)%nat then JS.Normal (setAvailableFields [] st)
  else
    match JS.Object_keys (nth_error data 0) with
    | JS.Throw e => JS.Throw e
    | JS.Normal keys =>
        let fields := fold_left (analyze_key data) keys [] in
        let st := setAvailableFields fields st in
        let newNumericFields := filter is_numeric_field fields in
        let newStringFields := filter is_dimension_field fields in
        let st :=
          match newNumericFields with
          | f :: _ => setSelectedMetrics [name f] st
          | [] => setSelectedMetrics [] st
          end in
        let st :=
          match newStringFields with
          | f :: _ => setSelectedDimensions [name f] st
          | [] => setSelectedDimensions [] st
          end in
        JS.Normal (setSelectedDateRange "" st)
    end.

(** The total of one metric over the records. *)
Definition metric_total (data : list DataPoint) (metric : string) : Z :=
  fold_left (fun sum val => sum + val)
            (map (fun item => number_or_zero (item_get item metric)) data) 0.

(** The reducer that buckets by formatted date. *)
Definition group_by_date (dateField primaryMetric : string)
           (acc : JS.obj Z) (item : DataPoint) : JS.obj Z :=
  let dateValue := item_get item dateField in
  if negb (JS.truthy dateValue) then acc
  else
    let date := DateTime.toLocaleDateString_short_month_year LocalTZA
                  (Date_parse (JS.to_string dateValue)) in
    let acc := match JS.get acc date with
               | Some _ => acc
               | None => JS.set date 0 acc
               end in
    let metricValue := item_get item primaryMetric in
    JS.set date (match JS.get acc date with Some n => n | None => 0 end
                 + number_or_zero metricValue) acc.

(** The reducer that groups by dimension value. *)
Definition group_by_dimension (primaryDimension primaryMetric : string)
           (acc : JS.obj Z) (item : DataPoint) : JS.obj Z :=
  let dimensionValue := item_get item primaryDimension in
  let dimension := JS.to_string (JS.or_else dimensionValue (JS.VStr "Unknown")) in
  let acc := match JS.get acc dimension with
             | Some _ => acc
             | None => JS.set dimension 0 acc
             end in
  let metricValue := item_get item primaryMetric in
  JS.set dimension (match JS.get acc dimension with Some n => n | None => 0 end
                    + number_or_zero metricValue) acc.

Definition by_parsed_label (a b : string * Z) : Z :=
  DateTime.time_difference (Date_parse (fst a)) (Date_parse (fst b)).

Definition by_value_descending (a b : string * Z) : Z := snd b - snd a.

Definition generateChartData (data : list DataPoint) (st : state) : state :=
  if ((List.length data =? 0)%nat || (List.length (selectedMetrics st) =? 0)%nat)%bool
  then setChartData empty_chart st
  else
    let newMetrics :=
      fold_left (fun m metric => JS.set metric (metric_total data metric) m)
                (selectedMetrics st) [] in
    let dateField := option_map name (hd_error (dateFields st)) in
    let primaryMetric := hd_error (selectedMetrics st) in
    let sortedEntries :=
      match dateField, primaryMetric with
      | Some df, Some pm =>
          if (present_name dateField && present_name primaryMetric)%bool
          then JS.Array_sort by_parsed_label
                 (JS.own_entries (fold_left (group_by_date df pm) data []))
          else []
      | _, _ => []
      end in
    let primaryDimension := hd_error (selectedDimensions st) in
    let newPie :=
      match primaryDimension, primaryMetric with
      | Some pd, Some pm =>
          if (present_name primaryDimension && present_name primaryMetric)%bool
          then map_indexed
                 (fun e index =>
                    {| pie_name := fst e;
                       pie_value := snd e;
                       pie_color := nth (index mod List.length COLORS) COLORS "" |})
                 0%nat
                 (JS.Array_sort by_value_descending
                    (JS.own_entries (fold_left (group_by_dimension pd pm) data [])))
          else []
      | _, _ => []
      end in
    setChartData
      {| lineChart := map (fun e => {| x := fst e; y := snd e |}) sortedEntries;
         pieChart := newPie;
         metrics := newMetrics;
         categories := map fst sortedEntries |} st.

(** [applyFilters].  [now] and [start] are the two clock readings
    [new Date()] taken at its start. *)
Definition range_start (range : string) (now start : Z) : Z :=
  if (range =? "last-7-days")%string
  then DateTime.setDate LocalTZA start (DateTime.getDate LocalTZA now - 7)
  else if (range =? "last-30-days")%string
  then DateTime.setDate LocalTZA start (DateTime.getDate LocalTZA now - 30)
  else if (range =? "last-90-days")%string
  then DateTime.setDate LocalTZA start (DateTime.getDate LocalTZA now - 90)
  else if (range =? "last-year")%string
  then DateTime.setFullYear LocalTZA start (DateTime.getFullYear LocalTZA now - 1)
  else start.

Definition in_range (dateField : string) (startDate now : Z) (item : DataPoint)
  : bool :=
  let itemDate := Date_parse (JS.to_string (item_get item dateField)) in
  (DateTime.date_ge itemDate (Some startDate)
   && DateTime.date_le itemDate (Some now))%bool.

Definition filter_records (now start : Z) (st : state) : list DataPoint :=
  if (negb (selectedDateRange st =? "")%string
      && (0 <? List.length (dateFields st))%nat)%bool
  then
    match dateFields st with
    | f :: _ =>
        let dateField := name f in
        let startDate := range_start (selectedDateRange st) now start in
        filter (in_range dateField startDate now) (rawData st)
    | [] => rawData st
    end
  else rawData st.

Definition applyFilters (now start : Z) (st : state) : state :=
  let filtered := filter_records now start st in
  generateChartData filtered (setFilteredData filtered st).

(** [handleDataSetChange]. *)
Definition handleDataSetChange (dataSetId : string) (st : state) : state :=
  setChartData empty_chart
    (setFilteredData []
       (setRawData []
          (setSelectedDimensions []
             (setSelectedMetrics []
                (setSelectedDateRange ""
                   (setSelectedDataSet dataSetId st)))))).

(** The successful path of [loadDataSetContent]: the parsed array is
    stored and analysed. *)
Definition loadDataSetContent (jsonData : list DataPoint) (st : state)
  : JS.completion state :=
  analyzeDataStructure jsonData (setRawData jsonData st).

(** A switch of data set: the selection handler runs, then the content
    of the chosen data set arrives. *)
Definition switchDataSet (dataSetId : string) (jsonData : list DataPoint)
           (st : state) : JS.completion state :=
  loadDataSetContent jsonData (handleDataSetChange dataSetId st).

End Host.

(** [Array.prototype.includes] on a list of names. *)
Definition includes_name (names : list string) (s : string) : bool :=
  existsb (String.eqb s) names.

(** [removeMetric] and [removeDimension]. *)
Definition removeMetric (metric : string) (st : state) : state :=
  setSelectedMetrics
    (filter (fun m => negb (m =? metric)%string) (selectedMetrics st)) st.

Definition removeDimension (dimension : string) (st : state) : state :=
  setSelectedDimensions
    (filter (fun d => negb (d =? dimension)%string) (selectedDimensions st)) st.

(** [addMetric] and [addDimension]. *)
Definition addMetric (metric : string) (st : state) : state :=
  if negb (includes_name (selectedMetrics st) metric)
  then setSelectedMetrics (selectedMetrics st ++ [metric]) st
  else st.

Definition addDimension (dimension : string) (st : state) : state :=
  if negb (includes_name (selectedDimensions st) dimension)
  then setSelectedDimensions (selectedDimensions st ++ [dimension]) st
  else st.


End Dashboard.

(* ===================================================================== *)
(** ** The data-set administration page *)
(* ===================================================================== *)

Module AdminDashboard.

(** The [userId] object of a payment. *)
Record User : Type := mkUser {
  _id : string;
  firstName : string;
  lastName : string;
  email : string;
  companyName : string
}.

Record Payment : Type := mkPayment {
  payment_id : string;
  userId : User;
  amount : Z;
  status : string
}.

(** [self.findIndex(p)]: the first position that satisfies [p], or -1. *)
Fixpoint findIndex_from {A} (p : A -> bool) (i : Z) (self : list A) : Z :=
  match self with
  | [] => -1
  | a :: rest => if p a then i else findIndex_from p (i + 1) rest
  end.

Definition findIndex {A} (p : A -> bool) (self : list A) : Z :=
  findIndex_from p 0 self.

(** [self.filter((element, index) => keep element index)]. *)
Fixpoint filter_from {A} (keep : A -> Z -> bool) (i : Z) (l : list A) : list A :=
  match l with
  | [] => []
  | a :: rest =>
      if keep a i then a :: filter_from keep (i + 1) rest
      else filter_from keep (i + 1) rest
  end.

Definition getUniqueUsers (payments : list Payment) : list User :=
  let users := map userId payments in
  filter_from
    (fun user index =>
       index =? findIndex (fun u => (_id u =? _id user)%string) users)
    0 users.

Definition itemsPerPage : Z := 7.

Definition startItem (currentPage : Z) : Z := (currentPage - 1) * itemsPerPage + 1.

Definition endItem (currentPage totalItems : Z) : Z :=
  Z.min (currentPage * itemsPerPage) totalItems.

(** [for (let i = from; i <= to; i++) pages.push(i)]; [steps] bounds the
    number of iterations. *)
Fixpoint push_pages (steps : nat) (i to : Z) (pages : list Z) : list Z :=
  match steps with
  | O => pages
  | S steps' =>
      if i <=? to then push_pages steps' (i + 1) to (pages ++ [i]) else pages
  end.

(** The loop with as many steps as it can take. *)
Definition push_range (from to : Z) (pages : list Z) : list Z :=
  push_pages (Z.to_nat (to + 1 - from)) from to pages.

Definition maxVisiblePages : Z := 5.

Definition getPageNumbers (currentPage totalPages : Z) : list Z :=
  if totalPages <=? maxVisiblePages then push_range 1 totalPages []
  else
    let startPage := Z.max 1 (currentPage - maxVisiblePages / 2) in
    let endPage := Z.min totalPages (startPage + maxVisiblePages - 1) in
    let startPage :=
      if endPage - startPage <? maxVisiblePages - 1
      then Z.max 1 (endPage - maxVisiblePages + 1)
      else startPage in
    push_range startPage endPage [].

(** The click handlers of the pagination bar and what enables them. *)
Definition previousPage (currentPage : Z) : Z := Z.max 1 (currentPage - 1).
Definition previous_disabled (currentPage : Z) : bool := currentPage =? 1.

Definition nextPage (currentPage totalPages : Z) : Z :=
  Z.min totalPages (currentPage + 1).
Definition next_disabled (currentPage totalPages : Z) : bool :=
  currentPage =? totalPages.

(** The page after a confirmed deletion: the previous page when the last
    row of a later page went away, else the same page, reloaded. *)
Definition page_after_delete (rows currentPage : Z) : Z :=
  if ((rows =? 1) && (1 <? currentPage))%bool then currentPage - 1
  else currentPage.

(** The page after a data set was created. *)
Definition page_after_create : Z := 1.

End AdminDashboard.

(* ===================================================================== *)
(** ** The banner *)
(* ===================================================================== *)

Module Banner.

(** [s.split(sep)] for a one-character separator. *)
Fixpoint split (sep : ascii) (s : string) : list string :=
  match s with
  | EmptyString => [EmptyString]
  | String c s' =>
      if Ascii.eqb c sep then EmptyString :: split sep s'
      else match split sep s' with
           | seg :: rest => String c seg :: rest
           | [] => [String c EmptyString]
           end
  end.

(** [Boolean(s)] for a string. *)
Definition nonempty (s : string) : bool := negb (s =? "")%string.

Definition upper_ascii (c : ascii) : ascii :=
  let n := nat_of_ascii c in
  if ((97 <=? n)%nat && (n <=? 122)%nat)%bool then ascii_of_nat (n - 32) else c.

(** [segment.charAt(0).toUpperCase() + segment.slice(1)].  A path name is
    a URL path, hence ASCII, where [toUpperCase] maps the small letters
    only. *)
Definition capitalize (segment : string) : string :=
  match segment with
  | EmptyString => EmptyString
  | String c rest => String (upper_ascii c) rest
  end.

Definition getBreadcrumbs (pathname : string) : list string :=
  let segments := filter nonempty (split "/"%char pathname) in
  if (List.length segments =? 0)%nat then ["Home"]
  else "Home" :: map capitalize segments.

End Banner.

(* ===================================================================== *)
(** ** Vocabulary of the specification *)
(* ===================================================================== *)

(** Sum of a list of numbers. *)
Definition Zsum (l : list Z) : Z := fold_right Z.add 0 l.

Section Order.
Context {A : Type}.
Variable eq_dec : forall a b : A, {a = b} + {a <> b}.

(** Position of the first occurrence of [a]. *)
Fixpoint first_index (a : A) (l : list A) : option nat :=
  match l with
  | [] => None
  | b :: l' =>
      if eq_dec a b then Some 0%nat
      else option_map S (first_index a l')
  end.

(** [a] is first met in [l] before [b] is. *)
Definition first_seen_before (l : list A) (a b : A) : Prop :=
  match first_index a l, first_index b l with
  | Some i, Some j => (i < j)%nat
  | _, _ => False
  end.
End Order.

(** [a] occurs in [l] with [b] somewhere after it. *)
Fixpoint precedes {A} (a b : A) (l : list A) : Prop :=
  match l with
  | [] => False
  | c :: l' => (c = a /\ In b l') \/ precedes a b l'
  end.


Import Dashboard.

(** One step of a grouping reducer: the group [k] is created at zero when
    it is new, then [n] is added to it. *)
Definition add_to_group (k : string) (n : Z) (acc : JS.obj Z) : JS.obj Z :=
  let acc := match JS.get acc k with
             | Some _ => acc
             | None => JS.set k 0 acc
             end in
  JS.set k (match JS.get acc k with Some m => m | None => 0 end + n) acc.

(** The groups built from a list of (label, amount) contributions. *)
Definition groups_of (ps : list (string * Z)) : JS.obj Z :=
  fold_left (fun acc p => add_to_group (fst p) (snd p) acc) ps [].

(** Sum of the amounts contributed under label [k]. *)
Definition group_total (k : string) (ps : list (string * Z)) : Z :=
  Zsum (map snd (filter (fun p => (fst p =? k)%string) ps)).



(** [typeof metricValue === "number" ? metricValue : 0] for the metric of a
    record. *)
Definition metric_amount (metric : string) (item : DataPoint) : Z :=
  number_or_zero (item_get item metric).




(** The record carries a usable (truthy) value in the date field. *)
Definition has_date (dateField : string) (item : DataPoint) : bool :=
  JS.truthy (item_get item dateField).

Section Buckets.
Variable Date_parse : string -> DateTime.time_value.
Variable LocalTZA : Z.

(** The time-series bucket of a record. *)
Definition bucket_label (dateField : string) (item : DataPoint) : string :=
  DateTime.toLocaleDateString_short_month_year LocalTZA
    (Date_parse (JS.to_string (item_get item dateField))).

Definition date_contributions (dateField metric : string)
           (data : list DataPoint) : list (string * Z) :=
  map (fun item => (bucket_label dateField item, metric_amount metric item))
      (filter (has_date dateField) data).

End Buckets.

(** Length in days of the calendar year that ends at [now] (local time):
    the year that "one year ago" steps over. *)
Definition days_of_last_year (LocalTZA now : Z) : Z :=
  let l := DateTime.LocalTime LocalTZA now in
  let year := DateTime.YearFromTime l in
  if DateTime.MonthFromTime l <? 2 then DateTime.DaysInYear (year - 1)
  else DateTime.DaysInYear year.

(** The look-back of a date-range token, in days. *)
Definition range_days (LocalTZA now : Z) (range : string) : option Z :=
  if (range =? "last-7-days")%string then Some 7
  else if (range =? "last-30-days")%string then Some 30
  else if (range =? "last-90-days")%string then Some 90
  else if (range =? "last-year")%string then Some (days_of_last_year LocalTZA now)
  else None.

(** The descriptors that field inference derives from a record list. *)
Definition inferred_fields (Date_parse : string -> DateTime.time_value)
           (data : list DataPoint) : list FieldInfo :=
  match data with
  | [] => []
  | first :: _ => fold_left (analyze_key Date_parse data) (JS.own_keys first) []
  end.






(** A string field with between 2 and 19 sampled values. *)
Definition low_cardinality (f : FieldInfo) : Prop :=
  type f = TString /\ (2 <= List.length (values f) <= 19)%nat.

(** [selection] names the first field of [fields] that satisfies [P], or
    is empty when no field does. *)
Definition selects_first (P : FieldInfo -> Prop) (fields : list FieldInfo)
           (selection : list string) : Prop :=
  (exists earlier f later,
      fields = earlier ++ f :: later /\ P f
      /\ Forall (fun g => ~ P g) earlier /\ selection = [name f])
  \/ (Forall (fun g => ~ P g) fields /\ selection = []).

(** The record's date value parses to a time in [lo, hi]. *)
Definition dated_within (Date_parse : string -> DateTime.time_value)
           (dateField : string) (lo hi : Z) (item : DataPoint) : bool :=
  match Date_parse (JS.to_string (item_get item dateField)) with
  | Some t => (lo <=? t) && (t <=? hi)
  | None => false
  end.



(** [l1] is [l2] with some elements left out, the others in place. *)
Inductive subsequence {A : Type} : list A -> list A -> Prop :=
| subsequence_nil : subsequence [] []
| subsequence_skip (a : A) (l1 l2 : list A) :
    subsequence l1 l2 -> subsequence l1 (a :: l2)
| subsequence_keep (a : A) (l1 l2 : list A) :
    subsequence l1 l2 -> subsequence (a :: l1) (a :: l2).

(** The record's date value parses to exactly the time [t]. *)
Definition dated_at (Date_parse : string -> DateTime.time_value)
           (dateField : string) (t : Z) (item : DataPoint) : bool :=
  match Date_parse (JS.to_string (item_get item dateField)) with
  | Some t' => t' =? t
  | None => false
  end.

(** The pages [first], [first + 1], ..., [count] of them. *)
Definition page_run (first : Z) (count : nat) : list Z :=
  map (fun k => first + Z.of_nat k) (seq 0 count).

(** One click in the pagination bar, or one completed deletion or
    creation, as far as the current page goes. *)
Inductive page_step (totalPages : Z) : Z -> Z -> Prop :=
| step_previous (currentPage : Z) :
    AdminDashboard.previous_disabled currentPage = false ->
    page_step totalPages currentPage (AdminDashboard.previousPage currentPage)
| step_next (currentPage : Z) :
    AdminDashboard.next_disabled currentPage totalPages = false ->
    page_step totalPages currentPage
              (AdminDashboard.nextPage currentPage totalPages)
| step_select (currentPage pageNum : Z) :
    In pageNum (AdminDashboard.getPageNumbers currentPage totalPages) ->
    page_step totalPages currentPage pageNum
| step_delete (currentPage rows : Z) :
    page_step totalPages currentPage
              (AdminDashboard.page_after_delete rows currentPage)
| step_create (currentPage : Z) :
    page_step totalPages currentPage AdminDashboard.page_after_create.

(** Any number of such steps. *)
Inductive page_steps (totalPages : Z) : Z -> Z -> Prop :=
| steps_none (currentPage : Z) : page_steps totalPages currentPage currentPage
| steps_more (p q r : Z) :
    page_step totalPages p q -> page_steps totalPages q r ->
    page_steps totalPages p r.

(** The users of [l] whose id is not in [seen] and was not met earlier in
    [l]. *)
Fixpoint first_by_id (seen : list string) (l : list AdminDashboard.User)
  : list AdminDashboard.User :=
  match l with
  | [] => []
  | u :: rest =>
      if existsb (String.eqb (AdminDashboard._id u)) seen
      then first_by_id seen rest
      else u :: first_by_id (AdminDashboard._id u :: seen) rest
  end.

(** [path] is the segments, each behind a slash. *)
Definition path_of (segments : list string) : string :=
  fold_right (fun seg rest => ("/" ++ seg ++ rest)%string) "" segments.

(** The string has no slash in it. *)
Fixpoint slash_free (s : string) : Prop :=
  match s with
  | EmptyString => True
  | String c s' => c <> "/"%char /\ slash_free s'
  end.

(* ===================================================================== *)
(** ** Scenarios *)
(* ===================================================================== *)

(** A host date parser, tabulated on the strings the scenarios use.  The
    labels are read the way V8 reads them ("Jan 24" is 24 January 2001). *)
Definition scenario_parse (s : string) : DateTime.time_value :=
  if (s =? "2024-02-20")%string then Some 1708387200000
  else if (s =? "2024-02-12")%string then Some 1707696000000
  else if (s =? "2024-01-15")%string then Some 1705276800000
  else if (s =? "Jan 24")%string then Some 980294400000
  else if (s =? "Feb 24")%string then Some 982972800000
  else None.

(** 20 February 2024, 00:00 UTC. *)
Definition scenario_now : Z := 1708387200000.

Definition field_of (key : string) (kind : FieldType) (sample : list JS.value)
  : FieldInfo :=
  {| name := key; type := kind; values := sample |}.

(** [[{cat:"A",amt:10},{cat:"B",amt:30},{cat:"A",amt:5}]] *)
Definition sales_records : list DataPoint :=
  [ [("cat", JS.VStr "A"); ("amt", JS.VNum 10)];
    [("cat", JS.VStr "B"); ("amt", JS.VNum 30)];
    [("cat", JS.VStr "A"); ("amt", JS.VNum 5)] ].

Definition sales_state : state :=
  {| selectedDataSet := "sales"; selectedDateRange := "";
     selectedMetrics := ["amt"]; selectedDimensions := ["cat"];
     rawData := sales_records; filteredData := sales_records;
     chartData := empty_chart;
     availableFields :=
       [ field_of "cat" TString [JS.VStr "A"; JS.VStr "B"];
         field_of "amt" TNumber [JS.VNum 10; JS.VNum 30; JS.VNum 5] ] |}.



(** Three payments of two users; the second payment of the first user
    carries another company name. *)
Definition scenario_payments : list AdminDashboard.Payment :=
  [ AdminDashboard.mkPayment "p1"
      (AdminDashboard.mkUser "u1" "Ada" "Byron" "ada@example.org" "Engines")
      120 "paid";
    AdminDashboard.mkPayment "p2"
      (AdminDashboard.mkUser "u2" "Alan" "Turing" "alan@example.org" "Machines")
      80 "paid";
    AdminDashboard.mkPayment "p3"
      (AdminDashboard.mkUser "u1" "Ada" "Byron" "ada@example.org" "Analytics")
      60 "paid" ].

(** Sixty records with sixty different values of one field. *)
Definition numbered_records : list DataPoint :=
  map (fun n => [("id", JS.VNum (Z.of_nat n))]) (seq 0 60).



(** Records with a date field: one dated now, one eight days earlier, one
    whose date does not parse, one without a date. *)
Definition dated_records : list DataPoint :=
  [ [("when", JS.VStr "2024-02-20"); ("amt", JS.VNum 7)];
    [("when", JS.VStr "2024-02-12"); ("amt", JS.VNum 8)];
    [("when", JS.VStr "2024-01-15"); ("amt", JS.VNum 20)];
    [("when", JS.VStr "soon"); ("amt", JS.VNum 100)];
    [("when", JS.VNull); ("amt", JS.VNum 1000)] ].

Definition dated_state : state :=
  {| selectedDataSet := "dated"; selectedDateRange := "last-7-days";
     selectedMetrics := ["amt"]; selectedDimensions := [];
     rawData := dated_records; filteredData := dated_records;
     chartData := empty_chart;
     availableFields :=
       [ field_of "when" TDate
           [JS.VStr "2024-02-20"; JS.VStr "2024-02-12"; JS.VStr "2024-01-15";
            JS.VStr "soon"];
         field_of "amt" TNumber
           [JS.VNum 7; JS.VNum 8; JS.VNum 20; JS.VNum 100; JS.VNum 1000] ] |}.

(* ===================================================================== *)
(** ** Lists, sums and order *)
(* ===================================================================== *)

Lemma Zsum_app (l1 l2 : list Z) : Zsum (l1 ++ l2) = Zsum l1 + Zsum l2.
Proof.
  induction l1 as [|a l1 IH]; simpl; [reflexivity|].
  rewrite IH. lia.
Qed.





Lemma precedes_nth {A} (l : list A) :
  forall i j a b,
    (i < j)%nat -> nth_error l i = Some a -> nth_error l j = Some b ->
    precedes a b l.
Proof.
  induction l as [|c l IH]; intros i j a b Hij Hi Hj.
  - destruct i; discriminate.
  - destruct j as [|j]; [lia|]. simpl in Hj.
    destruct i as [|i]; simpl in Hi.
    + injection Hi as ->. left. split; [reflexivity|].
      eapply nth_error_In; eassumption.
    + right. apply (IH i j); [lia|assumption|assumption].
Qed.



Lemma precedes_sorted {A} (R : A -> A -> Prop) (a b : A) (l : list A) :
  StronglySorted R l -> precedes a b l -> R a b.
Proof.
  induction 1 as [|c l Hs IH Hall]; simpl; [tauto|].
  intros [[-> Hb]|H].
  - rewrite Forall_forall in Hall. auto.
  - auto.
Qed.

Lemma StronglySorted_weaken {A} (R R' : A -> A -> Prop) (l : list A) :
  (forall a b, In a l -> In b l -> R a b -> R' a b) ->
  StronglySorted R l -> StronglySorted R' l.
Proof.
  intros Himp Hs. induction Hs as [|c l Hs IH Hall].
  - constructor.
  - constructor.
    + apply IH. intros a b Ha Hb. apply Himp; right; assumption.
    + rewrite Forall_forall in *. intros b Hb.
      apply Himp; [left; reflexivity|right; assumption|auto].
Qed.


Lemma In_firstn_In {A} (n : nat) (l : list A) (a : A) :
  In a (firstn n l) -> In a l.
Proof.
  revert n. induction l as [|c l IH]; intros [|n]; simpl; try tauto.
  intros [->|H]; [tauto|]. right. eapply IH. eassumption.
Qed.

Lemma firstn_NoDup {A} (n : nat) (l : list A) :
  NoDup l -> NoDup (firstn n l).
Proof.
  intros H. revert n. induction H as [|c l Hc Hl IH]; intros [|n]; simpl;
    try constructor.
  - intros Hin. apply Hc. eapply In_firstn_In. eassumption.
  - apply IH.
Qed.

Lemma StronglySorted_firstn {A} (R : A -> A -> Prop) (n : nat) (l : list A) :
  StronglySorted R l -> StronglySorted R (firstn n l).
Proof.
  intros Hs. revert n. induction Hs as [|c l Hs IH Hall]; intros [|n]; simpl;
    try constructor.
  - apply IH.
  - rewrite Forall_forall in *. intros b Hb. apply Hall.
    eapply In_firstn_In; eassumption.
Qed.

Section FirstIndex.
Context {A : Type}.
Variable eq_dec : forall a b : A, {a = b} + {a <> b}.

Lemma first_index_Some (a : A) (l : list A) :
  In a l -> exists i, first_index eq_dec a l = Some i.
Proof.
  induction l as [|b l IH]; simpl; [tauto|].
  intros H. destruct (eq_dec a b) as [->|Hne]; [eauto|].
  destruct H as [->|H]; [congruence|].
  destruct (IH H) as [i ->]. simpl. eauto.
Qed.





End FirstIndex.

(* ===================================================================== *)
(** ** [Set], strings *)
(* ===================================================================== *)

Lemma same_value_zero_seen (v : JS.value) (seen : list JS.value) :
  existsb (JS.same_value_zero v) seen = true <-> In v seen.
Proof.
  rewrite existsb_exists. unfold JS.same_value_zero. split.
  - intros [w [Hw H]]. destruct (JS.value_eq_dec v w); [subst; assumption|discriminate].
  - intros H. exists v. split; [assumption|].
    destruct (JS.value_eq_dec v v); [reflexivity|congruence].
Qed.

Lemma set_from_In (vs seen : list JS.value) (v : JS.value) :
  In v (JS.set_from seen vs) <-> In v vs /\ ~ In v seen.
Proof.
  revert seen. induction vs as [|w vs IH]; intros seen; simpl; [tauto|].
  destruct (existsb (JS.same_value_zero w) seen) eqn:E.
  - apply same_value_zero_seen in E. rewrite IH.
    split; [tauto|]. intros [[->|H] Hn]; tauto.
  - assert (Hw : ~ In w seen).
    { intros H. apply same_value_zero_seen in H. congruence. }
    simpl. rewrite IH. simpl.
    destruct (JS.value_eq_dec w v) as [->|Hne]; [tauto|].
    split; [intros [?|[? ?]]; [congruence|tauto]|].
    intros [[?|?] ?]; [congruence|]. right. split; [assumption|].
    intros [?|?]; [congruence|tauto].
Qed.

Lemma set_from_NoDup (vs seen : list JS.value) : NoDup (JS.set_from seen vs).
Proof.
  revert seen. induction vs as [|w vs IH]; intros seen; simpl; [constructor|].
  destruct (existsb (JS.same_value_zero w) seen); [apply IH|].
  constructor; [|apply IH].
  rewrite set_from_In. simpl. tauto.
Qed.

Lemma first_seen_before_cons (v a b : JS.value) (vs : list JS.value) :
  a <> v -> b <> v ->
  first_seen_before JS.value_eq_dec vs a b ->
  first_seen_before JS.value_eq_dec (v :: vs) a b.
Proof.
  intros Ha Hb. unfold first_seen_before. simpl.
  destruct (JS.value_eq_dec a v); [congruence|].
  destruct (JS.value_eq_dec b v); [congruence|].
  destruct (first_index JS.value_eq_dec a vs); simpl; [|tauto].
  destruct (first_index JS.value_eq_dec b vs); simpl; [lia|tauto].
Qed.

Lemma first_seen_before_head (v b : JS.value) (vs : list JS.value) :
  b <> v -> In b vs -> first_seen_before JS.value_eq_dec (v :: vs) v b.
Proof.
  intros Hb Hin. unfold first_seen_before. simpl.
  destruct (JS.value_eq_dec v v); [|congruence].
  destruct (JS.value_eq_dec b v); [congruence|].
  destruct (first_index_Some JS.value_eq_dec b vs Hin) as [j ->]. simpl. lia.
Qed.

(** The spread of a [Set] lists the values in the order of their first
    occurrence. *)
Lemma set_from_sorted (vs seen : list JS.value) :
  StronglySorted (first_seen_before JS.value_eq_dec vs) (JS.set_from seen vs).
Proof.
  revert seen. induction vs as [|w vs IH]; intros seen; simpl; [constructor|].
  destruct (existsb (JS.same_value_zero w) seen) eqn:E.
  - apply same_value_zero_seen in E.
    eapply StronglySorted_weaken; [|apply IH].
    intros a b Ha Hb. apply set_from_In in Ha, Hb.
    apply first_seen_before_cons; intros ->; tauto.
  - constructor.
    + eapply StronglySorted_weaken; [|apply IH].
      intros a b Ha Hb. apply set_from_In in Ha, Hb. simpl in Ha, Hb.
      apply first_seen_before_cons; intros ->; tauto.
    + rewrite Forall_forall. intros b Hb. apply set_from_In in Hb. simpl in Hb.
      apply first_seen_before_head; [intros ->; tauto|tauto].
Qed.





(* ===================================================================== *)
(** ** Array-index property names *)
(* ===================================================================== *)







(* ===================================================================== *)
(** ** Objects as ordered maps *)
(* ===================================================================== *)



Section ObjectFacts.
Context {V : Type}.
Implicit Types (o : JS.obj V) (k : string) (v : V).

Lemma get_None o k : JS.get o k = None <-> ~ In k (map fst o).
Proof.
  induction o as [|[k' v'] o IH]; simpl; [tauto|].
  destruct (String.eqb_spec k' k) as [->|Hne].
  - split; [discriminate|tauto].
  - rewrite IH. tauto.
Qed.

Lemma get_Some_In o k v : JS.get o k = Some v -> In (k, v) o.
Proof.
  induction o as [|[k' v'] o IH]; simpl; [discriminate|].
  destruct (String.eqb_spec k' k) as [->|Hne].
  - intros [= ->]. left. reflexivity.
  - intros H. right. auto.
Qed.

Lemma In_get_Some o k v :
  NoDup (map fst o) -> In (k, v) o -> JS.get o k = Some v.
Proof.
  induction o as [|[k' v'] o IH]; simpl; [tauto|].
  intros Hnd [H|H].
  - injection H as -> ->. rewrite String.eqb_refl. reflexivity.
  - inversion Hnd as [|? ? Hk Hnd']; subst.
    destruct (String.eqb_spec k' k) as [->|Hne].
    + exfalso. apply Hk. change k with (fst (k, v)). apply in_map. assumption.
    + auto.
Qed.

Lemma get_set_eq k v o : JS.get (JS.set k v o) k = Some v.
Proof.
  induction o as [|[k' v'] o IH]; simpl.
  - rewrite String.eqb_refl. reflexivity.
  - destruct (String.eqb_spec k' k) as [->|Hne]; simpl.
    + rewrite String.eqb_refl. reflexivity.
    + destruct (String.eqb_spec k' k); [congruence|assumption].
Qed.

Lemma get_set_ne k k' v o :
  k <> k' -> JS.get (JS.set k v o) k' = JS.get o k'.
Proof.
  intros Hne. induction o as [|[k0 v0] o IH]; simpl.
  - destruct (String.eqb_spec k k'); [congruence|reflexivity].
  - destruct (String.eqb_spec k0 k) as [->|Hne0]; simpl.
    + destruct (String.eqb_spec k k'); [congruence|reflexivity].
    + rewrite IH. reflexivity.
Qed.

Lemma keys_set_present k v o :
  In k (map fst o) -> map fst (JS.set k v o) = map fst o.
Proof.
  induction o as [|[k' v'] o IH]; simpl; [tauto|].
  intros H. destruct (String.eqb_spec k' k) as [->|Hne]; simpl; [reflexivity|].
  destruct H as [H|H]; [congruence|]. rewrite IH by assumption. reflexivity.
Qed.

Lemma keys_set_absent k v o :
  ~ In k (map fst o) -> map fst (JS.set k v o) = map fst o ++ [k].
Proof.
  induction o as [|[k' v'] o IH]; simpl; [reflexivity|].
  intros H. destruct (String.eqb_spec k' k) as [->|Hne]; simpl; [tauto|].
  rewrite IH by tauto. reflexivity.
Qed.

Lemma seen_In k (seen : list string) :
  existsb (String.eqb k) seen = true <-> In k seen.
Proof.
  rewrite existsb_exists. split.
  - intros [k' [Hin H]]. apply String.eqb_eq in H. subst. assumption.
  - intros H. exists k. split; [assumption|apply String.eqb_refl].
Qed.

Lemma props_from_keys seen o k :
  In k (map fst (JS.props_from seen o)) <-> In k (map fst o) /\ ~ In k seen.
Proof.
  revert seen. induction o as [|[k' v] o IH]; intros seen; simpl; [tauto|].
  destruct (existsb (String.eqb k') seen) eqn:E.
  - apply seen_In in E. rewrite IH.
    split; [tauto|]. intros [[->|H] Hn]; tauto.
  - assert (Hk : ~ In k' seen).
    { intros H. apply seen_In in H. congruence. }
    simpl. rewrite IH. simpl.
    destruct (string_dec k' k) as [->|Hne]; [tauto|].
    split; [intros [?|[? ?]]; [congruence|tauto]|].
    intros [[?|?] ?]; [congruence|]. right. split; [assumption|].
    intros [?|?]; [congruence|tauto].
Qed.

Lemma props_from_NoDup seen o : NoDup (map fst (JS.props_from seen o)).
Proof.
  revert seen. induction o as [|[k v] o IH]; intros seen; simpl; [constructor|].
  destruct (existsb (String.eqb k) seen); [apply IH|].
  simpl. constructor; [|apply IH].
  rewrite props_from_keys. simpl. tauto.
Qed.

Lemma props_from_id seen o :
  NoDup (map fst o) -> (forall k, In k (map fst o) -> ~ In k seen) ->
  JS.props_from seen o = o.
Proof.
  revert seen. induction o as [|[k v] o IH]; intros seen Hnd Hseen; simpl;
    [reflexivity|].
  inversion Hnd as [|? ? Hk Hnd']; subst.
  destruct (existsb (String.eqb k) seen) eqn:E.
  - apply seen_In in E. exfalso. apply (Hseen k); [left; reflexivity|assumption].
  - f_equal. apply IH; [assumption|].
    intros k' Hin [<-|H]; [tauto|]. apply (Hseen k'); [right; assumption|assumption].
Qed.

Lemma props_id o : NoDup (map fst o) -> JS.props o = o.
Proof.
  intros H. apply props_from_id; [assumption|]. intros k _ [].
Qed.

Lemma insert_by_index_Permutation (i : N) (p : string * V) l :
  Permutation (JS.insert_by_index i p l) ((i, p) :: l).
Proof.
  induction l as [|[j q] l IH]; simpl; [reflexivity|].
  destruct (i <? j)%N; [reflexivity|].
  rewrite IH. apply perm_swap.
Qed.


Lemma index_props_Permutation o :
  Permutation (map snd (JS.index_props o))
              (filter (fun p => negb (JS.is_named p)) o).
Proof.
  induction o as [|[k v] o IH]; simpl; [reflexivity|].
  unfold JS.is_named at 1. simpl.
  destruct (JS.array_index k) as [i|]; simpl; [|assumption].
  rewrite (Permutation_map snd (insert_by_index_Permutation i (k, v) _)).
  simpl. constructor. assumption.
Qed.



Lemma filter_split (f : string * V -> bool) (l : list (string * V)) :
  Permutation (filter (fun p => negb (f p)) l ++ filter f l) l.
Proof.
  induction l as [|a l IH]; simpl; [reflexivity|].
  destruct (f a); simpl.
  - apply Permutation_sym, Permutation_cons_app, Permutation_sym. assumption.
  - constructor. assumption.
Qed.

(** [Object.entries] lists every property once. *)
Lemma own_entries_Permutation o : Permutation (JS.own_entries o) (JS.props o).
Proof.
  unfold JS.own_entries, JS.named_props.
  rewrite index_props_Permutation. apply (filter_split JS.is_named).
Qed.

Lemma own_entries_NoDup o : NoDup (map fst (JS.own_entries o)).
Proof.
  eapply Permutation_NoDup.
  - apply Permutation_map, Permutation_sym, own_entries_Permutation.
  - apply props_from_NoDup.
Qed.

Lemma own_keys_In o k : In k (JS.own_keys o) <-> In k (map fst o).
Proof.
  unfold JS.own_keys. split; intros H.
  - apply (Permutation_in _ (Permutation_map fst (own_entries_Permutation o))) in H.
    apply props_from_keys in H. tauto.
  - apply (Permutation_in _ (Permutation_sym
             (Permutation_map fst (own_entries_Permutation o)))).
    apply props_from_keys. tauto.
Qed.

Lemma own_entries_get o k v :
  NoDup (map fst o) -> (In (k, v) (JS.own_entries o) <-> JS.get o k = Some v).
Proof.
  intros Hnd. split; intros H.
  - apply (Permutation_in _ (own_entries_Permutation o)) in H.
    rewrite props_id in H by assumption. apply In_get_Some; assumption.
  - apply (Permutation_in _ (Permutation_sym (own_entries_Permutation o))).
    rewrite props_id by assumption. apply get_Some_In. assumption.
Qed.

End ObjectFacts.

(* ===================================================================== *)
(** ** [Array.prototype.sort] *)
(* ===================================================================== *)

Section SortFacts.
Context {A : Type}.
Variable cmp : A -> A -> Z.

Lemma sort_insert_Permutation (x : A) (l : list A) :
  Permutation (JS.sort_insert cmp x l) (x :: l).
Proof.
  induction l as [|y l IH]; simpl; [reflexivity|].
  destruct (cmp x y <=? 0); [reflexivity|].
  rewrite IH. apply perm_swap.
Qed.

Lemma Array_sort_Permutation (l : list A) : Permutation (JS.Array_sort cmp l) l.
Proof.
  induction l as [|x l IH]; simpl; [reflexivity|].
  rewrite sort_insert_Permutation. constructor. assumption.
Qed.




Hypothesis cmp_antisym : forall a b, 0 < cmp a b -> cmp b a <= 0.


End SortFacts.


(* ===================================================================== *)
(** ** Grouping reducers *)
(* ===================================================================== *)

Lemma add_to_group_get (k : string) (n : Z) (acc : JS.obj Z) :
  JS.get (add_to_group k n acc) k
  = Some (match JS.get acc k with Some m => m | None => 0 end + n).
Proof.
  unfold add_to_group. rewrite get_set_eq.
  destruct (JS.get acc k) eqn:E; [rewrite E; reflexivity|].
  rewrite get_set_eq. reflexivity.
Qed.

Lemma add_to_group_get_other (k k' : string) (n : Z) (acc : JS.obj Z) :
  k <> k' -> JS.get (add_to_group k n acc) k' = JS.get acc k'.
Proof.
  intros Hne. unfold add_to_group. rewrite get_set_ne by assumption.
  destruct (JS.get acc k); [reflexivity|]. apply get_set_ne. assumption.
Qed.

Lemma add_to_group_keys_old (k : string) (n : Z) (acc : JS.obj Z) :
  In k (map fst acc) -> map fst (add_to_group k n acc) = map fst acc.
Proof.
  intros H. unfold add_to_group.
  destruct (JS.get acc k) eqn:E.
  - apply keys_set_present. assumption.
  - apply get_None in E. tauto.
Qed.

Lemma add_to_group_keys_new (k : string) (n : Z) (acc : JS.obj Z) :
  ~ In k (map fst acc) -> map fst (add_to_group k n acc) = map fst acc ++ [k].
Proof.
  intros H. unfold add_to_group.
  destruct (JS.get acc k) eqn:E.
  - assert (JS.get acc k <> None) by congruence.
    rewrite get_None in H0. tauto.
  - rewrite keys_set_present.
    + apply keys_set_absent. assumption.
    + rewrite keys_set_absent by assumption. apply in_or_app. right. left. reflexivity.
Qed.



Lemma groups_of_snoc (ps : list (string * Z)) (p : string * Z) :
  groups_of (ps ++ [p]) = add_to_group (fst p) (snd p) (groups_of ps).
Proof.
  unfold groups_of. rewrite fold_left_app. reflexivity.
Qed.

Lemma group_total_snoc (k : string) (ps : list (string * Z)) (p : string * Z) :
  group_total k (ps ++ [p])
  = group_total k ps + (if (fst p =? k)%string then snd p else 0).
Proof.
  unfold group_total. rewrite filter_app, map_app, Zsum_app. simpl.
  destruct (fst p =? k)%string; simpl; lia.
Qed.

Lemma group_total_absent (k : string) (ps : list (string * Z)) :
  ~ In k (map fst ps) -> group_total k ps = 0.
Proof.
  unfold group_total. induction ps as [|p ps IH]; simpl; [reflexivity|].
  intros H. destruct (String.eqb_spec (fst p) k); [tauto|]. apply IH. tauto.
Qed.


Lemma groups_of_NoDup (ps : list (string * Z)) : NoDup (map fst (groups_of ps)).
Proof.
  induction ps as [|p ps IH] using rev_ind; [constructor|].
  rewrite groups_of_snoc.
  destruct (in_dec string_dec (fst p) (map fst (groups_of ps))) as [Hin|Hnin].
  - rewrite add_to_group_keys_old by assumption. assumption.
  - rewrite add_to_group_keys_new by assumption.
    apply NoDup_app; [assumption|repeat constructor; simpl; tauto|].
    intros a Ha [<-|[]]. tauto.
Qed.

(** Each group holds the sum of what was contributed under its label. *)
Lemma groups_of_get (ps : list (string * Z)) (k : string) :
  JS.get (groups_of ps) k
  = if in_dec string_dec k (map fst ps) then Some (group_total k ps) else None.
Proof.
  induction ps as [|p ps IH] using rev_ind; [reflexivity|].
  rewrite groups_of_snoc, group_total_snoc.
  destruct (String.eqb_spec (fst p) k) as [E|Hne].
  - rewrite E, add_to_group_get, IH.
    destruct (in_dec string_dec k (map fst (ps ++ [p]))) as [_|Hn].
    + destruct (in_dec string_dec k (map fst ps)) as [_|Hn]; [reflexivity|].
      rewrite group_total_absent by assumption. reflexivity.
    + exfalso. apply Hn. rewrite map_app. apply in_or_app. right. left. assumption.
  - rewrite add_to_group_get_other by assumption. rewrite IH.
    rewrite Z.add_0_r.
    destruct (in_dec string_dec k (map fst ps)) as [Hin|Hnin];
      destruct (in_dec string_dec k (map fst (ps ++ [p]))) as [Hin'|Hnin'];
      try reflexivity; exfalso.
    + apply Hnin'. rewrite map_app. apply in_or_app. tauto.
    + rewrite map_app in Hin'. apply in_app_or in Hin'.
      destruct Hin' as [?|[?|[]]]; [tauto|congruence].
Qed.



(** What [Object.entries] returns for the groups. *)
Lemma group_entries_In (ps : list (string * Z)) (k : string) (v : Z) :
  In (k, v) (JS.own_entries (groups_of ps))
  <-> In k (map fst ps) /\ v = group_total k ps.
Proof.
  rewrite own_entries_get by apply groups_of_NoDup.
  rewrite groups_of_get.
  destruct (in_dec string_dec k (map fst ps)); split.
  - intros [= <-]. tauto.
  - intros [_ ->]. reflexivity.
  - discriminate.
  - tauto.
Qed.


(* ===================================================================== *)
(** ** Chart generation *)
(* ===================================================================== *)



Lemma fold_left_map {A B C} (f : A -> C -> A) (g : B -> C) (l : list B) (a : A) :
  fold_left (fun acc b => f acc (g b)) l a = fold_left f (map g l) a.
Proof.
  revert a. induction l as [|b l IH]; intros a; simpl; [reflexivity|]. apply IH.
Qed.




Section ChartFacts.
Variable Date_parse : string -> DateTime.time_value.
Variable LocalTZA : Z.



Lemma group_by_date_fold (df pm : string) (data : list DataPoint) :
  fold_left (group_by_date Date_parse LocalTZA df pm) data []
  = groups_of (date_contributions Date_parse LocalTZA df pm data).
Proof.
  unfold groups_of, date_contributions.
  rewrite <- fold_left_map. simpl.
  generalize (@nil (string * Z)). induction data as [|item data IH]; intros acc;
    simpl; [reflexivity|].
  unfold group_by_date at 2. unfold has_date at 1.
  destruct (JS.truthy (item_get item df)); simpl; apply IH.
Qed.


(** The line chart once the guard on date field and metric has passed. *)
Lemma lineChart_generate (st : state) (data : list DataPoint)
      (f : FieldInfo) (fs : list FieldInfo) (pm : string) (ms : list string) :
  dateFields st = f :: fs -> selectedMetrics st = pm :: ms ->
  name f <> "" -> pm <> "" ->
  lineChart (chartData (generateChartData Date_parse LocalTZA data st))
  = map (fun e => {| x := fst e; y := snd e |})
      (JS.Array_sort (by_parsed_label Date_parse)
         (JS.own_entries
            (groups_of (date_contributions Date_parse LocalTZA (name f) pm data)))).
Proof.
  intros Hd Hm Hdf Hpm.
  destruct data as [|item data];
    [unfold generateChartData; rewrite Hd, Hm; reflexivity|].
  assert (Hlen : (List.length (item :: data) =? 0)%nat = false) by reflexivity.
  revert Hlen. generalize (item :: data). intros d Hlen.
  unfold generateChartData. rewrite Hlen, Hd, Hm.
  cbn [List.length Nat.eqb orb hd_error option_map present_name andb].
  apply String.eqb_neq in Hdf, Hpm. rewrite Hdf, Hpm.
  cbn [negb andb chartData setChartData lineChart].
  rewrite group_by_date_fold. reflexivity.
Qed.

End ChartFacts.

(* ===================================================================== *)
(** ** Calendar arithmetic *)
(* ===================================================================== *)

Lemma DayFromYear_succ (y : Z) :
  DateTime.DayFromYear (y + 1) = DateTime.DayFromYear y + DateTime.DaysInYear y.
Proof.
  unfold DateTime.DayFromYear, DateTime.DaysInYear, DateTime.is_leap.
  destruct (Z.eqb_spec (y mod 4) 0) as [H4|H4]; cbn [negb];
    [destruct (Z.eqb_spec (y mod 100) 0) as [H100|H100]; cbn [negb];
     [destruct (Z.eqb_spec (y mod 400) 0) as [H400|H400]; cbn [negb]|]|];
    Z.div_mod_to_equations; lia.
Qed.

(** [YearFromDay] returns the year whose days include [d]. *)
Lemma YearFromDay_spec (d : Z) :
  DateTime.DayFromYear (DateTime.YearFromDay d) <= d
  < DateTime.DayFromYear (DateTime.YearFromDay d + 1).
Proof.
  unfold DateTime.YearFromDay.
  set (y := 1970 + d * 400 / 146097).
  destruct (Z.ltb_spec d (DateTime.DayFromYear y)) as [Hlt|Hge].
  - replace (y - 1 + 1) with y by lia. split; [|assumption].
    unfold DateTime.DayFromYear in *. subst y. Z.div_mod_to_equations. lia.
  - destruct (Z.leb_spec (DateTime.DayFromYear (y + 1)) d) as [Hle|Hgt].
    + split; [assumption|].
      unfold DateTime.DayFromYear in *. subst y. Z.div_mod_to_equations. lia.
    + split; assumption.
Qed.

Lemma MonthFromTime_range (t : Z) : 0 <= DateTime.MonthFromTime t <= 11.
Proof.
  unfold DateTime.MonthFromTime.
  repeat match goal with
         | |- context [if ?c then _ else _] => destruct c
         end; lia.
Qed.

Lemma month_start_leap (m a b : Z) :
  0 <= m <= 11 ->
  DateTime.month_start m a - DateTime.month_start m b
  = if m <? 2 then 0 else a - b.
Proof.
  intros H.
  assert (m = 0 \/ m = 1 \/ m = 2 \/ m = 3 \/ m = 4 \/ m = 5 \/ m = 6
          \/ m = 7 \/ m = 8 \/ m = 9 \/ m = 10 \/ m = 11) as Hm by lia.
  repeat destruct Hm as [->|Hm]; try subst m;
    cbn [DateTime.month_start Z.ltb Z.compare Pos.compare Pos.compare_cont]; lia.
Qed.

Lemma MakeDay_in_range (y m d : Z) :
  0 <= m <= 11 ->
  DateTime.MakeDay y m d
  = DateTime.DayFromYear y
    + DateTime.month_start m (if DateTime.is_leap y then 1 else 0) + d - 1.
Proof.
  intros H. unfold DateTime.MakeDay.
  rewrite Z.div_small, Z.mod_small by lia.
  rewrite Z.add_0_r. reflexivity.
Qed.

Lemma MakeDate_Day (t k : Z) :
  DateTime.MakeDate (DateTime.Day t - k) (DateTime.TimeWithinDay t)
  = t - k * DateTime.msPerDay.
Proof.
  unfold DateTime.MakeDate, DateTime.Day, DateTime.TimeWithinDay, DateTime.msPerDay.
  Z.div_mod_to_equations. lia.
Qed.

(** Setting the day of the month [k] days back moves the time value back
    by exactly [k] days. *)
Lemma setDate_back (LocalTZA now k : Z) :
  DateTime.setDate LocalTZA now (DateTime.getDate LocalTZA now - k)
  = now - k * DateTime.msPerDay.
Proof.
  unfold DateTime.setDate, DateTime.getDate, DateTime.UTC.
  set (l := DateTime.LocalTime LocalTZA now).
  rewrite MakeDay_in_range by apply MonthFromTime_range.
  unfold DateTime.DateFromTime, DateTime.DayWithinYear, DateTime.InLeapYear.
  match goal with
  | |- DateTime.MakeDate ?d _ - _ = _ =>
      replace d with (DateTime.Day l - k) by lia
  end.
  rewrite MakeDate_Day. unfold l, DateTime.LocalTime. lia.
Qed.

Lemma days_of_last_year_range (LocalTZA now : Z) :
  365 <= days_of_last_year LocalTZA now <= 366.
Proof.
  unfold days_of_last_year, DateTime.DaysInYear.
  repeat match goal with
         | |- context [if ?c then _ else _] => destruct c
         end; lia.
Qed.

(** Setting the year one back moves the time value back by the length of
    the year stepped over. *)
Lemma setFullYear_back (LocalTZA now : Z) :
  DateTime.setFullYear LocalTZA now (DateTime.getFullYear LocalTZA now - 1)
  = now - days_of_last_year LocalTZA now * DateTime.msPerDay.
Proof.
  unfold DateTime.setFullYear, DateTime.getFullYear, DateTime.UTC, days_of_last_year.
  set (l := DateTime.LocalTime LocalTZA now).
  set (year := DateTime.YearFromTime l).
  pose proof (MonthFromTime_range l) as Hm.
  rewrite MakeDay_in_range by assumption.
  unfold DateTime.DateFromTime, DateTime.DayWithinYear, DateTime.InLeapYear.
  fold year.
  pose proof (month_start_leap (DateTime.MonthFromTime l)
                (if DateTime.is_leap (year - 1) then 1 else 0)
                (if DateTime.is_leap year then 1 else 0) Hm) as Hms.
  pose proof (DayFromYear_succ (year - 1)) as Hy.
  replace (year - 1 + 1) with year in Hy by lia.
  match goal with
  | |- DateTime.MakeDate ?d _ - _ = _ =>
      replace d with
        (DateTime.Day l - (if DateTime.MonthFromTime l <? 2
                           then DateTime.DaysInYear (year - 1)
                           else DateTime.DaysInYear year))
  end.
  - rewrite MakeDate_Day. unfold l, DateTime.LocalTime. lia.
  - unfold DateTime.DaysInYear in *.
    destruct (DateTime.MonthFromTime l <? 2);
      destruct (DateTime.is_leap (year - 1)); destruct (DateTime.is_leap year); lia.
Qed.

(* ===================================================================== *)
(** ** Field inference *)
(* ===================================================================== *)



Lemma first_field_selected (P : FieldInfo -> bool) (fields : list FieldInfo) :
  selects_first (fun f => P f = true) fields
    match filter P fields with
    | f :: _ => [name f]
    | [] => []
    end.
Proof.
  induction fields as [|g fields IH]; simpl.
  - right. split; [constructor|reflexivity].
  - destruct (P g) eqn:E.
    + left. exists [], g, fields. repeat split; [assumption|constructor].
    + destruct IH as [[earlier [f [later [-> [Hf [Hearlier Hsel]]]]]]|[Hnone Hsel]].
      * left. exists (g :: earlier), f, later. repeat split; try assumption.
        constructor; [congruence|assumption].
      * right. split; [|assumption]. constructor; [congruence|assumption].
Qed.

Lemma selects_first_ext (P Q : FieldInfo -> Prop) fields selection :
  (forall f, P f <-> Q f) ->
  selects_first P fields selection -> selects_first Q fields selection.
Proof.
  intros HPQ [[earlier [f [later [-> [Hf [Hearlier Hsel]]]]]]|[Hnone Hsel]].
  - left. exists earlier, f, later. repeat split; try assumption.
    + apply HPQ. assumption.
    + eapply Forall_impl; [|exact Hearlier]. intros g Hg HQ. apply Hg, HPQ, HQ.
  - right. split; [|assumption].
    eapply Forall_impl; [|exact Hnone]. intros g Hg HQ. apply Hg, HPQ, HQ.
Qed.

Lemma is_numeric_field_spec (f : FieldInfo) :
  is_numeric_field f = true <-> type f = TNumber.
Proof.
  unfold is_numeric_field. destruct (type f); simpl; split; congruence.
Qed.

Lemma is_dimension_field_spec (f : FieldInfo) :
  is_dimension_field f = true <-> low_cardinality f.
Proof.
  unfold is_dimension_field, low_cardinality.
  rewrite !andb_true_iff, !Nat.ltb_lt.
  destruct (type f); simpl; split; intros H;
    try (destruct H as [[? ?] ?]; discriminate);
    try (destruct H; discriminate);
    repeat split; try reflexivity; lia.
Qed.

Lemma firstn_missing {A} (n : nat) (l : list A) (v : A) :
  In v l -> ~ In v (firstn n l) ->
  List.length (firstn n l) = n
  /\ forall a, In a (firstn n l) -> precedes a v l.
Proof.
  revert n. induction l as [|c l IH]; intros n Hin Hnot; [destruct Hin|].
  destruct n as [|n]; simpl in *.
  - split; [reflexivity|tauto].
  - destruct Hin as [->|Hin]; [tauto|].
    destruct (IH n Hin) as [Hlen Hprec]; [tauto|].
    split; [lia|]. intros a [->|Ha].
    + left. tauto.
    + right. auto.
Qed.

Section InferenceFacts.
Variable Date_parse : string -> DateTime.time_value.



Lemma analyze_key_app (data : list DataPoint) (fields : list FieldInfo)
      (key : string) :
  analyze_key Date_parse data fields key
  = fields ++ analyze_key Date_parse data [] key.
Proof.
  unfold analyze_key.
  destruct (List.length (field_values data key) =? 0)%nat.
  - rewrite app_nil_r. reflexivity.
  - reflexivity.
Qed.

Lemma analyze_keys_flat (data : list DataPoint) (keys : list string) :
  forall fields,
    fold_left (analyze_key Date_parse data) keys fields
    = fields ++ flat_map (analyze_key Date_parse data []) keys.
Proof.
  induction keys as [|key keys IH]; intros fields; simpl.
  - rewrite app_nil_r. reflexivity.
  - rewrite IH, analyze_key_app, app_assoc. reflexivity.
Qed.

(** What the descriptor of a field looks like. *)
Lemma analyze_key_In (data : list DataPoint) (key : string) (f : FieldInfo) :
  In f (analyze_key Date_parse data [] key) <->
  field_values data key <> []
  /\ f = {| name := key;
            type := detect_type Date_parse key (field_values data key);
            values := firstn 50 (JS.Set_of (field_values data key)) |}.
Proof.
  unfold analyze_key, JS.slice0.
  destruct (field_values data key) as [|v vals] eqn:E; simpl.
  - split; [tauto|]. intros [H _]. congruence.
  - split.
    + intros [<-|[]]. split; [discriminate|reflexivity].
    + intros [_ ->]. left. reflexivity.
Qed.



(** Field inference always completes; it stores the inferred fields, and
    on a non-empty record list it selects the defaults. *)
Lemma analyzeDataStructure_result (data : list DataPoint) (st : state) :
  exists st',
    analyzeDataStructure Date_parse data st = JS.Normal st'
    /\ availableFields st' = inferred_fields Date_parse data
    /\ rawData st' = rawData st
    /\ match data with
       | [] => selectedMetrics st' = selectedMetrics st
               /\ selectedDimensions st' = selectedDimensions st
               /\ selectedDateRange st' = selectedDateRange st
       | _ :: _ =>
           selects_first (fun f => type f = TNumber) (availableFields st')
                         (selectedMetrics st')
           /\ selects_first low_cardinality (availableFields st')
                            (selectedDimensions st')
           /\ selectedDateRange st' = ""
       end.
Proof.
  destruct data as [|first rest].
  - eexists. split; [reflexivity|]. simpl. tauto.
  - unfold analyzeDataStructure.
    cbn [List.length Nat.eqb nth_error JS.Object_keys].
    set (fields := fold_left (analyze_key Date_parse (first :: rest))
                             (JS.own_keys first) []).
    eexists. split; [reflexivity|].
    split; [destruct (filter is_numeric_field fields),
              (filter is_dimension_field fields); reflexivity|].
    split; [destruct (filter is_numeric_field fields),
              (filter is_dimension_field fields); reflexivity|].
    pose proof (first_field_selected is_numeric_field fields) as Hn.
    pose proof (first_field_selected is_dimension_field fields) as Hd.
    apply (selects_first_ext _ (fun f => type f = TNumber)) in Hn;
      [|apply is_numeric_field_spec].
    apply (selects_first_ext _ low_cardinality) in Hd;
      [|apply is_dimension_field_spec].
    destruct (filter is_numeric_field fields),
      (filter is_dimension_field fields); simpl; auto.
Qed.
End InferenceFacts.

(* ===================================================================== *)
(** ** Properties of field inference *)
(* ===================================================================== *)


Lemma inferred_fields_In (Date_parse : string -> DateTime.time_value)
      (first : DataPoint) (rest : list DataPoint) (f : FieldInfo) :
  In f (inferred_fields Date_parse (first :: rest)) <->
  In (name f) (map fst first)
  /\ field_values (first :: rest) (name f) <> []
  /\ type f = detect_type Date_parse (name f)
                          (field_values (first :: rest) (name f))
  /\ values f = firstn 50 (JS.Set_of (field_values (first :: rest) (name f))).
Proof.
  unfold inferred_fields. rewrite analyze_keys_flat. cbn [app].
  rewrite in_flat_map. split.
  - intros [key [Hkey Hf]]. apply analyze_key_In in Hf. destruct Hf as [Hne ->].
    cbn [name type values]. apply (proj1 (own_keys_In first key)) in Hkey. tauto.
  - intros [Hkey [Hne [Ht Hv]]]. exists (name f). split.
    + apply (proj2 (own_keys_In first (name f))). assumption.
    + apply analyze_key_In. split; [assumption|].
      destruct f as [n t v]. cbn [name type values] in *. subst. reflexivity.
Qed.




(** C5.  The sample stored in a descriptor has at most 50 entries, all
    distinct and all observed; they stand in the order in which the
    values were first met, and a value is left out only when 50 values
    met before it fill the sample. *)
Theorem sample_values_bounded_distinct_ordered
        (Date_parse : string -> DateTime.time_value)
        (data : list DataPoint) (st st' : state) (f : FieldInfo) :
  analyzeDataStructure Date_parse data st = JS.Normal st' ->
  In f (availableFields st') ->
  let observed := field_values data (name f) in
  (List.length (values f) <= 50)%nat
  /\ NoDup (values f)
  /\ (forall v, In v (values f) -> In v observed)
  /\ (forall i j a b,
        (i < j)%nat ->
        nth_error (values f) i = Some a -> nth_error (values f) j = Some b ->
        first_seen_before JS.value_eq_dec observed a b)
  /\ (forall v,
        In v observed -> ~ In v (values f) ->
        List.length (values f) = 50%nat
        /\ forall a, In a (values f) ->
                     first_seen_before JS.value_eq_dec observed a v).
Proof.
  intros Hrun Hf observed.
  destruct (analyzeDataStructure_result Date_parse data st)
    as [st1 [Hrun1 [Hfields _]]].
  rewrite Hrun in Hrun1. injection Hrun1 as <-. rewrite Hfields in Hf.
  destruct data as [|first rest]; [destruct Hf|].
  apply inferred_fields_In in Hf. destruct Hf as [_ [_ [_ Hv]]].
  fold observed in Hv. rewrite Hv.
  pose proof (set_from_sorted observed []) as Hsorted.
  fold (JS.Set_of observed) in Hsorted.
  split; [apply firstn_le_length|].
  split; [apply firstn_NoDup; apply set_from_NoDup|].
  split; [|split].
  - intros v H. apply In_firstn_In in H. apply set_from_In in H. tauto.
  - intros i j a b Hij Ha Hb.
    eapply precedes_sorted; [apply StronglySorted_firstn; exact Hsorted|].
    eapply precedes_nth; eassumption.
  - intros v Hobs Hnot.
    assert (Hin : In v (JS.Set_of observed)).
    { apply set_from_In. simpl. tauto. }
    destruct (firstn_missing 50 _ v Hin Hnot) as [Hlen Hprec].
    split; [assumption|]. intros a Ha.
    eapply precedes_sorted; [exact Hsorted|]. apply Hprec. assumption.
Qed.

Lemma sample_values_bounded_distinct_ordered_witness :
  exists st' f,
    analyzeDataStructure scenario_parse numbered_records initial_state
    = JS.Normal st'
    /\ In f (availableFields st')
    /\ List.length (values f) = 50%nat
    /\ NoDup (values f)
    /\ ~ In (JS.VNum 50) (values f).
Proof.
  destruct (analyzeDataStructure_result scenario_parse numbered_records
                                        initial_state)
    as [st' [Hrun [Hfields _]]].
  exists st',
    (field_of "id" TNumber (map (fun n => JS.VNum (Z.of_nat n)) (seq 0 50))).
  assert (Hf : In (field_of "id" TNumber
                     (map (fun n => JS.VNum (Z.of_nat n)) (seq 0 50)))
                  (availableFields st')).
  { rewrite Hfields. vm_compute. left. reflexivity. }
  destruct (sample_values_bounded_distinct_ordered
              scenario_parse numbered_records initial_state st' _ Hrun Hf)
    as [_ [Hnodup [_ [_ Hfull]]]].
  split; [exact Hrun|]. split; [exact Hf|]. split; [reflexivity|].
  split; [exact Hnodup|].
  intros Hin. vm_compute in Hin.
  repeat (destruct Hin as [Hin|Hin]; [discriminate|]). exact Hin.
Defined.

(** C6.  A switch of data set completes and leaves the selection at its
    defaults for the new records: the first numeric field as the only
    metric, the first string field with 2 to 19 sampled values as the only
    dimension (none when no field qualifies), and no date range. *)
Theorem switching_resets_selection
        (Date_parse : string -> DateTime.time_value)
        (dataSetId : string) (data : list DataPoint) (st : state) :
  exists st',
    switchDataSet Date_parse dataSetId data st = JS.Normal st'
    /\ rawData st' = data
    /\ availableFields st' = inferred_fields Date_parse data
    /\ selects_first (fun f => type f = TNumber) (availableFields st')
                     (selectedMetrics st')
    /\ selects_first low_cardinality (availableFields st')
                     (selectedDimensions st')
    /\ selectedDateRange st' = "".
Proof.
  unfold switchDataSet, loadDataSetContent.
  destruct (analyzeDataStructure_result Date_parse data
              (setRawData data (handleDataSetChange dataSetId st)))
    as [st' [Hrun [Hfields [Hraw Hsel]]]].
  exists st'. split; [assumption|]. split; [assumption|].
  split; [assumption|].
  destruct data as [|first rest]; [|assumption].
  destruct Hsel as [Hm [Hd Hr]]. rewrite Hm, Hd, Hr, Hfields. simpl.
  repeat split; right; split; constructor.
Qed.

(** C8.  On an empty record array field inference completes with no
    descriptor, and chart generation, also when reached through the
    filter, leaves every part of the chart data empty. *)
Theorem empty_records_give_empty_output
        (Date_parse : string -> DateTime.time_value) (LocalTZA : Z)
        (now start : Z) (st : state) :
  (exists st',
      analyzeDataStructure Date_parse [] st = JS.Normal st'
      /\ availableFields st' = [])
  /\ (let chart := chartData (generateChartData Date_parse LocalTZA [] st) in
      lineChart chart = [] /\ pieChart chart = []
      /\ metrics chart = [] /\ categories chart = [])
  /\ (let st' := applyFilters Date_parse LocalTZA now start (setRawData [] st) in
      filteredData st' = [] /\ chartData st' = empty_chart).
Proof.
  split; [|split].
  - eexists. split; reflexivity.
  - simpl. repeat split; reflexivity.
  - unfold applyFilters, filter_records. simpl.
    destruct (negb (selectedDateRange st =? "")%string
              && (0 <? List.length (dateFields (setRawData [] st)))%nat)%bool;
      [destruct (dateFields (setRawData [] st))|]; simpl; split; reflexivity.
Qed.

(* ===================================================================== *)
(** ** Properties of the filter *)
(* ===================================================================== *)

Lemma generateChartData_keeps_filtered
      (Date_parse : string -> DateTime.time_value) (LocalTZA : Z)
      (data : list DataPoint) (st : state) :
  filteredData (generateChartData Date_parse LocalTZA data st) = filteredData st.
Proof.
  unfold generateChartData.
  destruct ((List.length data =? 0)%nat
            || (List.length (selectedMetrics st) =? 0)%nat)%bool; reflexivity.
Qed.

Lemma applyFilters_filtered
      (Date_parse : string -> DateTime.time_value) (LocalTZA : Z)
      (now start : Z) (st : state) :
  filteredData (applyFilters Date_parse LocalTZA now start st)
  = filter_records Date_parse LocalTZA now start st.
Proof.
  unfold applyFilters. rewrite generateChartData_keeps_filtered. reflexivity.
Qed.

Lemma range_start_cutoff (LocalTZA now : Z) (range : string) (days : Z) :
  range_days LocalTZA now range = Some days ->
  range_start LocalTZA range now now = now - days * DateTime.msPerDay.
Proof.
  unfold range_days, range_start.
  destruct (range =? "last-7-days")%string;
    [intros [= <-]; apply setDate_back|].
  destruct (range =? "last-30-days")%string;
    [intros [= <-]; apply setDate_back|].
  destruct (range =? "last-90-days")%string;
    [intros [= <-]; apply setDate_back|].
  destruct (range =? "last-year")%string;
    [intros [= <-]; apply setFullYear_back|].
  discriminate.
Qed.

Lemma in_range_dated_within
      (Date_parse : string -> DateTime.time_value)
      (dateField : string) (startDate now : Z) (item : DataPoint) :
  in_range Date_parse dateField startDate now item
  = dated_within Date_parse dateField startDate now item.
Proof.
  unfold in_range, dated_within.
  destruct (Date_parse (JS.to_string (item_get item dateField))); reflexivity.
Qed.

Lemma filter_records_range
      (Date_parse : string -> DateTime.time_value) (LocalTZA : Z)
      (now : Z) (st : state) (f : FieldInfo) (fs : list FieldInfo) (days : Z) :
  dateFields st = f :: fs ->
  range_days LocalTZA now (selectedDateRange st) = Some days ->
  filter_records Date_parse LocalTZA now now st
  = filter (dated_within Date_parse (name f) (now - days * DateTime.msPerDay) now)
           (rawData st).
Proof.
  intros Hf Hdays. unfold filter_records. rewrite Hf.
  destruct (String.eqb_spec (selectedDateRange st) "") as [E|_].
  - rewrite E in Hdays. discriminate.
  - cbn [negb List.length Nat.ltb Nat.leb andb].
    rewrite (range_start_cutoff _ _ _ _ Hdays).
    apply filter_ext. intros item. apply in_range_dated_within.
Qed.



(* ===================================================================== *)
(** ** Properties of the totals *)
(* ===================================================================== *)




(* ===================================================================== *)
(** ** Properties of the category distribution *)
(* ===================================================================== *)

Lemma group_total_map {A} (label : A -> string) (amount : A -> Z)
      (k : string) (l : list A) :
  group_total k (map (fun a => (label a, amount a)) l)
  = Zsum (map amount (filter (fun a => (label a =? k)%string) l)).
Proof.
  unfold group_total. induction l as [|a l IH]; simpl; [reflexivity|].
  destruct (label a =? k)%string; simpl; rewrite IH; reflexivity.
Qed.






Section PieFacts.
Variable Date_parse : string -> DateTime.time_value.
Variable LocalTZA : Z.
Variables (st : state) (data : list DataPoint).
Variables (pd pm : string) (ds ms : list string).
Hypothesis dimension_given : selectedDimensions st = pd :: ds.
Hypothesis metric_given : selectedMetrics st = pm :: ms.
Hypothesis dimension_named : pd <> "".
Hypothesis metric_named : pm <> "".







End PieFacts.






(* ===================================================================== *)
(** ** Properties of the time series *)
(* ===================================================================== *)






Section LineFacts.
Variable Date_parse : string -> DateTime.time_value.
Variable LocalTZA : Z.
Variables (st : state) (data : list DataPoint).
Variables (f : FieldInfo) (fs : list FieldInfo) (pm : string) (ms : list string).
Hypothesis date_given : dateFields st = f :: fs.
Hypothesis metric_given : selectedMetrics st = pm :: ms.
Hypothesis date_named : name f <> "".
Hypothesis metric_named : pm <> "".

Let line := lineChart (chartData (generateChartData Date_parse LocalTZA data st)).
Let dated := filter (has_date (name f)) data.
Let label := bucket_label Date_parse LocalTZA (name f).
Let entries :=
  JS.Array_sort (by_parsed_label Date_parse)
    (JS.own_entries
       (groups_of (date_contributions Date_parse LocalTZA (name f) pm data))).

Lemma line_entries : map (fun p => (x p, y p)) line = entries.
Proof.
  unfold line.
  rewrite (lineChart_generate _ _ _ _ _ _ _ _
             date_given metric_given date_named metric_named).
  rewrite map_map. simpl. fold entries.
  rewrite <- (map_id entries) at 2. apply map_ext. intros [k v]. reflexivity.
Qed.

Lemma line_labels : map x line = map fst entries.
Proof.
  rewrite <- line_entries, map_map. reflexivity.
Qed.

Lemma date_labels :
  map fst (date_contributions Date_parse LocalTZA (name f) pm data)
  = map label dated.
Proof.
  unfold date_contributions. rewrite map_map. reflexivity.
Qed.

Lemma line_points_In (p : LinePoint) :
  In p line ->
  In (x p) (map label dated)
  /\ y p = Zsum (map (metric_amount pm)
                    (filter (fun item => (label item =? x p)%string) dated)).
Proof.
  intros H. apply (in_map (fun p => (x p, y p))) in H.
  rewrite line_entries in H. unfold entries in H.
  apply (Permutation_in _ (Array_sort_Permutation _ _)) in H.
  apply group_entries_In in H. rewrite date_labels in H.
  destruct H as [Hk ->]. split; [assumption|].
  unfold date_contributions. apply group_total_map.
Qed.

Lemma line_names (k : string) :
  In k (map x line) <-> In k (map label dated).
Proof.
  split.
  - rewrite in_map_iff. intros [p [<- Hp]]. apply line_points_In. assumption.
  - intros Hk. rewrite line_labels. unfold entries.
    rewrite <- date_labels in Hk.
    assert (He : In (k, group_total k
                          (date_contributions Date_parse LocalTZA (name f) pm data))
                    (JS.own_entries
                       (groups_of
                          (date_contributions Date_parse LocalTZA (name f) pm data)))).
    { apply group_entries_In. tauto. }
    apply (Permutation_in _ (Permutation_sym
                               (Array_sort_Permutation
                                  (by_parsed_label Date_parse) _))) in He.
    apply (in_map fst) in He. assumption.
Qed.

Lemma line_names_NoDup : NoDup (map x line).
Proof.
  rewrite line_labels. unfold entries.
  eapply Permutation_NoDup.
  - apply Permutation_map, Permutation_sym, Array_sort_Permutation.
  - apply own_entries_NoDup.
Qed.





End LineFacts.





(* ===================================================================== *)
(** ** Further properties of the filter *)
(* ===================================================================== *)

Lemma subsequence_refl {A} (l : list A) : subsequence l l.
Proof.
  induction l; constructor; assumption.
Qed.

Lemma subsequence_filter {A} (f : A -> bool) (l : list A) :
  subsequence (filter f l) l.
Proof.
  induction l as [|a l IH]; simpl; [constructor|].
  destruct (f a); constructor; assumption.
Qed.

Lemma subsequence_filters {A} (f g : A -> bool) (l : list A) :
  (forall a, f a = true -> g a = true) ->
  subsequence (filter f l) (filter g l).
Proof.
  intros Hfg. induction l as [|a l IH]; simpl; [constructor|].
  destruct (f a) eqn:E.
  - rewrite (Hfg a E). apply subsequence_keep. assumption.
  - destruct (g a); [apply subsequence_skip|]; assumption.
Qed.

Lemma subsequence_length {A} (l1 l2 : list A) :
  subsequence l1 l2 -> (List.length l1 <= List.length l2)%nat.
Proof.
  induction 1; simpl; lia.
Qed.

Lemma subsequence_In {A} (l1 l2 : list A) (a : A) :
  subsequence l1 l2 -> In a l1 -> In a l2.
Proof.
  induction 1; simpl; intuition.
Qed.

Lemma generateChartData_frame
      (Date_parse : string -> DateTime.time_value) (LocalTZA : Z)
      (data : list DataPoint) (st : state) :
  let st' := generateChartData Date_parse LocalTZA data st in
  rawData st' = rawData st
  /\ selectedMetrics st' = selectedMetrics st
  /\ selectedDimensions st' = selectedDimensions st
  /\ selectedDateRange st' = selectedDateRange st
  /\ availableFields st' = availableFields st.
Proof.
  unfold generateChartData.
  destruct ((List.length data =? 0)%nat
            || (List.length (selectedMetrics st) =? 0)%nat)%bool;
    repeat split; reflexivity.
Qed.

Lemma filter_records_subsequence
      (Date_parse : string -> DateTime.time_value) (LocalTZA : Z)
      (now start : Z) (st : state) :
  subsequence (filter_records Date_parse LocalTZA now start st) (rawData st).
Proof.
  unfold filter_records.
  destruct (negb (selectedDateRange st =? "")%string
            && (0 <? List.length (dateFields st))%nat)%bool;
    [|apply subsequence_refl].
  destruct (dateFields st); [apply subsequence_refl|apply subsequence_filter].
Qed.

(** X1.  Whatever the token and the clock, the records shown after
    filtering are records of the data set in their order, none more often
    than it was loaded; the filter changes neither the loaded records nor
    the selections nor the fields. *)
Theorem filter_shows_a_subsequence
        (Date_parse : string -> DateTime.time_value) (LocalTZA : Z)
        (now start : Z) (st : state) :
  let st' := applyFilters Date_parse LocalTZA now start st in
  subsequence (filteredData st') (rawData st)
  /\ (List.length (filteredData st') <= List.length (rawData st))%nat
  /\ rawData st' = rawData st
  /\ selectedMetrics st' = selectedMetrics st
  /\ selectedDimensions st' = selectedDimensions st
  /\ selectedDateRange st' = selectedDateRange st
  /\ availableFields st' = availableFields st.
Proof.
  intros st'. unfold st'. rewrite applyFilters_filtered.
  split; [apply filter_records_subsequence|].
  split; [apply subsequence_length, filter_records_subsequence|].
  unfold applyFilters.
  apply (generateChartData_frame Date_parse LocalTZA
           (filter_records Date_parse LocalTZA now start st)
           (setFilteredData (filter_records Date_parse LocalTZA now start st) st)).
Qed.

Lemma dated_within_wider
      (Date_parse : string -> DateTime.time_value)
      (dateField : string) (lo lo' hi : Z) (item : DataPoint) :
  lo' <= lo ->
  dated_within Date_parse dateField lo hi item = true ->
  dated_within Date_parse dateField lo' hi item = true.
Proof.
  unfold dated_within. intros Hlo.
  destruct (Date_parse (JS.to_string (item_get item dateField))); [|tauto].
  rewrite !andb_true_iff, !Z.leb_le. lia.
Qed.

Lemma kept_under_range
      (Date_parse : string -> DateTime.time_value) (LocalTZA : Z)
      (now : Z) (st : state) (f : FieldInfo) (fs : list FieldInfo)
      (range : string) (days : Z) :
  dateFields st = f :: fs ->
  range_days LocalTZA now range = Some days ->
  filteredData (applyFilters Date_parse LocalTZA now now
                             (setSelectedDateRange range st))
  = filter (dated_within Date_parse (name f)
                         (now - days * DateTime.msPerDay) now)
           (rawData st).
Proof.
  intros Hf Hdays. rewrite applyFilters_filtered.
  apply (filter_records_range Date_parse LocalTZA now
           (setSelectedDateRange range st) f fs days); assumption.
Qed.

(** X2.  A longer look-back never hides a record that a shorter one
    shows: at the same instant the records kept under "last-7-days" are
    among those kept under "last-30-days", those among the ones kept under
    "last-90-days", those among the ones kept under "last-year", and every
    selection is among the records kept without a token. *)
Theorem longer_range_keeps_more
        (Date_parse : string -> DateTime.time_value) (LocalTZA : Z)
        (now : Z) (st : state) :
  let kept := fun range =>
                filteredData (applyFilters Date_parse LocalTZA now now
                                           (setSelectedDateRange range st)) in
  subsequence (kept "last-7-days") (kept "last-30-days")
  /\ subsequence (kept "last-30-days") (kept "last-90-days")
  /\ subsequence (kept "last-90-days") (kept "last-year")
  /\ (forall range, subsequence (kept range) (kept "")).
Proof.
  intros kept.
  assert (Hnone : kept "" = rawData st).
  { unfold kept. rewrite applyFilters_filtered. reflexivity. }
  assert (Hall : forall range, subsequence (kept range) (kept "")).
  { intros range. rewrite Hnone. unfold kept.
    rewrite applyFilters_filtered.
    apply (filter_records_subsequence Date_parse LocalTZA now now
             (setSelectedDateRange range st)). }
  destruct (dateFields st) as [|f fs] eqn:Hf.
  - assert (Hid : forall range, kept range = rawData st).
    { intros range. unfold kept. rewrite applyFilters_filtered.
      unfold filter_records.
      change (dateFields (setSelectedDateRange range st)) with (dateFields st).
      rewrite Hf. cbn [List.length Nat.ltb Nat.leb].
      rewrite andb_false_r. reflexivity. }
    rewrite (Hid "last-7-days"), (Hid "last-30-days"), (Hid "last-90-days"),
      (Hid "last-year").
    repeat split; try apply subsequence_refl. exact Hall.
  - pose proof (days_of_last_year_range LocalTZA now) as Hyear.
    unfold kept.
    rewrite (kept_under_range _ _ _ _ f fs "last-7-days" 7 Hf eq_refl).
    rewrite (kept_under_range _ _ _ _ f fs "last-30-days" 30 Hf eq_refl).
    rewrite (kept_under_range _ _ _ _ f fs "last-90-days" 90 Hf eq_refl).
    rewrite (kept_under_range _ _ _ _ f fs "last-year"
               (days_of_last_year LocalTZA now) Hf eq_refl).
    unfold DateTime.msPerDay.
    repeat split; try (apply subsequence_filters; intros item;
                       apply dated_within_wider; lia).
    exact Hall.
Qed.

Lemma range_start_unknown (LocalTZA now start : Z) (range : string) :
  range_days LocalTZA now range = None ->
  range_start LocalTZA range now start = start.
Proof.
  unfold range_days, range_start.
  destruct (range =? "last-7-days")%string; [discriminate|].
  destruct (range =? "last-30-days")%string; [discriminate|].
  destruct (range =? "last-90-days")%string; [discriminate|].
  destruct (range =? "last-year")%string; [discriminate|]. reflexivity.
Qed.

(** X3.  A token that is not empty and is none of the four known ones
    moves no cutoff: with a date field present the filter then keeps only
    the records dated exactly at the clock reading. *)
Theorem unknown_range_keeps_only_now
        (Date_parse : string -> DateTime.time_value) (LocalTZA : Z)
        (now : Z) (st : state) (f : FieldInfo) (fs : list FieldInfo) :
  dateFields st = f :: fs ->
  selectedDateRange st <> "" ->
  range_days LocalTZA now (selectedDateRange st) = None ->
  filteredData (applyFilters Date_parse LocalTZA now now st)
  = filter (dated_at Date_parse (name f) now) (rawData st).
Proof.
  intros Hf Hne Hunknown. rewrite applyFilters_filtered.
  unfold filter_records. rewrite Hf.
  apply String.eqb_neq in Hne. rewrite Hne.
  cbn [negb List.length Nat.ltb Nat.leb andb].
  rewrite (range_start_unknown _ _ _ _ Hunknown).
  apply filter_ext. intros item. unfold in_range, dated_at.
  destruct (Date_parse (JS.to_string (item_get item (name f)))) as [t|];
    [|reflexivity].
  simpl. destruct (Z.leb_spec now t), (Z.leb_spec t now), (Z.eqb_spec t now);
    simpl; try reflexivity; lia.
Qed.

Lemma unknown_range_keeps_only_now_witness :
  filteredData
    (applyFilters scenario_parse 0 scenario_now scenario_now
                  (setSelectedDateRange "all-time" dated_state))
  = [ [("when", JS.VStr "2024-02-20"); ("amt", JS.VNum 7)] ].
Proof.
  rewrite (unknown_range_keeps_only_now
             scenario_parse 0 scenario_now
             (setSelectedDateRange "all-time" dated_state)
             (field_of "when" TDate
                [JS.VStr "2024-02-20"; JS.VStr "2024-02-12";
                 JS.VStr "2024-01-15"; JS.VStr "soon"])
             [] eq_refl ltac:(discriminate) eq_refl).
  reflexivity.
Defined.

(* ===================================================================== *)
(** ** Further properties of chart generation *)
(* ===================================================================== *)








Lemma names_bound {A} (label : A -> string) (names : list string) (l : list A) :
  NoDup names ->
  (forall k, In k names <-> In k (map label l)) ->
  (List.length names <= List.length l)%nat /\ (names = [] <-> l = []).
Proof.
  intros Hnd Hnames. split.
  - rewrite <- (length_map label l). apply NoDup_incl_length; [assumption|].
    intros k Hk. apply Hnames. assumption.
  - split.
    + intros ->. destruct l as [|a l]; [reflexivity|].
      exfalso. apply (proj2 (Hnames (label a))). left. reflexivity.
    + intros ->. destruct names as [|k names]; [reflexivity|].
      exfalso. apply (proj1 (Hnames k)). left. reflexivity.
Qed.



(** X7.  Given a date field and a primary metric, the line chart has a
    point exactly when some record carries a truthy date value, and never
    more points than such records; without any it is empty although
    there are records. *)
Theorem line_has_a_point_when_a_record_is_dated
        (Date_parse : string -> DateTime.time_value) (LocalTZA : Z)
        (st : state) (data : list DataPoint)
        (f : FieldInfo) (fs : list FieldInfo) (pm : string) (ms : list string) :
  dateFields st = f :: fs ->
  selectedMetrics st = pm :: ms ->
  name f <> "" -> pm <> "" ->
  let line := lineChart (chartData (generateChartData Date_parse LocalTZA data st)) in
  (List.length line <= List.length (filter (has_date (name f)) data))%nat
  /\ (line = [] <-> forall item, In item data -> has_date (name f) item = false).
Proof.
  intros Hd Hm Hdf Hpm line.
  destruct (names_bound (bucket_label Date_parse LocalTZA (name f))
                        (map x line) (filter (has_date (name f)) data))
    as [Hlen Hnil].
  - eapply line_names_NoDup; eassumption.
  - intros k. eapply line_names; eassumption.
  - rewrite length_map in Hlen. split; [assumption|].
    assert (Hline : line = [] <-> map x line = []).
    { split; [intros ->; reflexivity|].
      intros H. destruct line; [reflexivity|discriminate]. }
    rewrite Hline, Hnil. split.
    + intros Hnone item Hitem.
      destruct (has_date (name f) item) eqn:E; [|reflexivity].
      assert (Hin : In item (filter (has_date (name f)) data))
        by (apply filter_In; tauto).
      rewrite Hnone in Hin. destruct Hin.
    + intros Hall.
      destruct (filter (has_date (name f)) data) as [|item l] eqn:E;
        [reflexivity|].
      assert (Hin : In item (filter (has_date (name f)) data))
        by (rewrite E; left; reflexivity).
      apply filter_In in Hin. destruct Hin as [Hin Hdate].
      rewrite (Hall item Hin) in Hdate. discriminate.
Qed.

Lemma line_has_a_point_when_a_record_is_dated_witness :
  (List.length
     (lineChart (chartData
                   (generateChartData scenario_parse 0 dated_records dated_state)))
   <= 4)%nat.
Proof.
  apply (line_has_a_point_when_a_record_is_dated
           scenario_parse 0 dated_state dated_records
           (field_of "when" TDate
              [JS.VStr "2024-02-20"; JS.VStr "2024-02-12";
               JS.VStr "2024-01-15"; JS.VStr "soon"])
           [] "amt" [] eq_refl eq_refl);
    discriminate.
Defined.

(* ===================================================================== *)
(** ** Editing the selection *)
(* ===================================================================== *)

Lemma includes_name_In (names : list string) (s : string) :
  includes_name names s = true <-> In s names.
Proof.
  unfold includes_name. apply seen_In.
Qed.

Lemma remove_name_In (names : list string) (s k : string) :
  In k (filter (fun m => negb (m =? s)%string) names) <-> In k names /\ k <> s.
Proof.
  rewrite filter_In, negb_true_iff, String.eqb_neq. tauto.
Qed.

Lemma remove_added_name (names : list string) (s : string) :
  ~ In s names ->
  filter (fun m => negb (m =? s)%string) (names ++ [s]) = names.
Proof.
  intros Hs. rewrite filter_app. simpl. rewrite String.eqb_refl. simpl.
  rewrite app_nil_r. induction names as [|k names IH]; simpl; [reflexivity|].
  destruct (String.eqb_spec k s) as [->|Hne]; simpl.
  - exfalso. apply Hs. left. reflexivity.
  - f_equal. apply IH. intros H. apply Hs. right. assumption.
Qed.

(** X8.  Adding a metric or a dimension puts it at the end of the
    selection, so the primary one stays primary, and adds nothing when it
    is selected already: a selection without repetition stays without
    repetition. *)
Theorem adding_keeps_selection_without_repetition (s : string) (st : state) :
  (In s (selectedMetrics (addMetric s st))
   /\ (In s (selectedMetrics st) -> addMetric s st = st)
   /\ (~ In s (selectedMetrics st) ->
       selectedMetrics (addMetric s st) = selectedMetrics st ++ [s])
   /\ (NoDup (selectedMetrics st) -> NoDup (selectedMetrics (addMetric s st)))
   /\ (forall primary rest,
         selectedMetrics st = primary :: rest ->
         hd_error (selectedMetrics (addMetric s st)) = Some primary)
   /\ selectedDimensions (addMetric s st) = selectedDimensions st)
  /\ (In s (selectedDimensions (addDimension s st))
      /\ (In s (selectedDimensions st) -> addDimension s st = st)
      /\ (~ In s (selectedDimensions st) ->
          selectedDimensions (addDimension s st) = selectedDimensions st ++ [s])
      /\ (NoDup (selectedDimensions st) ->
          NoDup (selectedDimensions (addDimension s st)))
      /\ (forall primary rest,
            selectedDimensions st = primary :: rest ->
            hd_error (selectedDimensions (addDimension s st)) = Some primary)
      /\ selectedMetrics (addDimension s st) = selectedMetrics st).
Proof.
  split.
  - unfold addMetric.
    destruct (includes_name (selectedMetrics st) s) eqn:E; simpl.
    + apply includes_name_In in E. repeat split; try tauto.
      intros primary rest ->. reflexivity.
    + assert (Hs : ~ In s (selectedMetrics st)).
      { intros H. apply includes_name_In in H. congruence. }
      repeat split; try tauto.
      * apply in_or_app. right. left. reflexivity.
      * intros Hnd. apply NoDup_app; [assumption|repeat constructor; simpl; tauto|].
        intros a Ha [<-|[]]. tauto.
      * intros primary rest ->. reflexivity.
  - unfold addDimension.
    destruct (includes_name (selectedDimensions st) s) eqn:E; simpl.
    + apply includes_name_In in E. repeat split; try tauto.
      intros primary rest ->. reflexivity.
    + assert (Hs : ~ In s (selectedDimensions st)).
      { intros H. apply includes_name_In in H. congruence. }
      repeat split; try tauto.
      * apply in_or_app. right. left. reflexivity.
      * intros Hnd. apply NoDup_app; [assumption|repeat constructor; simpl; tauto|].
        intros a Ha [<-|[]]. tauto.
      * intros primary rest ->. reflexivity.
Qed.

Lemma adding_keeps_selection_without_repetition_witness :
  selectedMetrics (addMetric "qty" sales_state) = ["amt"; "qty"]
  /\ NoDup (selectedMetrics (addMetric "qty" sales_state)).
Proof.
  destruct (adding_keeps_selection_without_repetition "qty" sales_state)
    as [[_ [_ [Hnew [Hnodup _]]]] _].
  split.
  - apply Hnew. simpl. intros [H|[]]. discriminate.
  - apply Hnodup. simpl. repeat constructor; simpl; tauto.
Defined.

(** X9.  Removing a metric or a dimension removes every occurrence of it
    and leaves the others in their order; removing what was just added to
    a selection that lacked it gives the selection back; and once the
    last metric is removed the chart comes out empty whatever the
    records. *)
Theorem removing_undoes_adding
        (Date_parse : string -> DateTime.time_value) (LocalTZA : Z)
        (s : string) (st : state) :
  (~ In s (selectedMetrics (removeMetric s st))
   /\ (forall k, k <> s ->
                 (In k (selectedMetrics (removeMetric s st))
                  <-> In k (selectedMetrics st)))
   /\ subsequence (selectedMetrics (removeMetric s st)) (selectedMetrics st)
   /\ (~ In s (selectedMetrics st) -> removeMetric s (addMetric s st) = st))
  /\ (~ In s (selectedDimensions (removeDimension s st))
      /\ (forall k, k <> s ->
                    (In k (selectedDimensions (removeDimension s st))
                     <-> In k (selectedDimensions st)))
      /\ subsequence (selectedDimensions (removeDimension s st))
                     (selectedDimensions st)
      /\ (~ In s (selectedDimensions st) ->
          removeDimension s (addDimension s st) = st))
  /\ (forall data,
        selectedMetrics st = [s] ->
        chartData (generateChartData Date_parse LocalTZA data (removeMetric s st))
        = empty_chart).
Proof.
  split; [|split].
  - unfold removeMetric. cbn [selectedMetrics setSelectedMetrics].
    split; [rewrite remove_name_In; tauto|].
    split; [intros k Hk; rewrite remove_name_In; tauto|].
    split; [apply subsequence_filter|].
    intros Hs. unfold addMetric.
    assert (E : includes_name (selectedMetrics st) s = false).
    { destruct (includes_name (selectedMetrics st) s) eqn:E; [|reflexivity].
      apply includes_name_In in E. tauto. }
    rewrite E. cbn [negb selectedMetrics setSelectedMetrics].
    rewrite remove_added_name by assumption.
    destruct st. reflexivity.
  - unfold removeDimension. cbn [selectedDimensions setSelectedDimensions].
    split; [rewrite remove_name_In; tauto|].
    split; [intros k Hk; rewrite remove_name_In; tauto|].
    split; [apply subsequence_filter|].
    intros Hs. unfold addDimension.
    assert (E : includes_name (selectedDimensions st) s = false).
    { destruct (includes_name (selectedDimensions st) s) eqn:E; [|reflexivity].
      apply includes_name_In in E. tauto. }
    rewrite E. cbn [negb selectedDimensions setSelectedDimensions].
    rewrite remove_added_name by assumption.
    destruct st. reflexivity.
  - intros data Hs. unfold generateChartData, removeMetric.
    cbn [selectedMetrics setSelectedMetrics]. rewrite Hs. simpl.
    rewrite String.eqb_refl. simpl. rewrite orb_true_r. reflexivity.
Qed.

Lemma removing_undoes_adding_witness :
  removeMetric "qty" (addMetric "qty" sales_state) = sales_state
  /\ chartData (generateChartData scenario_parse 0 sales_records
                                  (removeMetric "amt" sales_state))
     = empty_chart.
Proof.
  destruct (removing_undoes_adding scenario_parse 0 "qty" sales_state)
    as [[_ [_ [_ Hundo]]] _].
  destruct (removing_undoes_adding scenario_parse 0 "amt" sales_state)
    as [_ [_ Hlast]].
  split.
  - apply Hundo. simpl. intros [H|[]]. discriminate.
  - apply Hlast. reflexivity.
Defined.

(* ===================================================================== *)
(** ** From the kinds to the values, from loading to the chart *)
(* ===================================================================== *)









(* ===================================================================== *)
(** ** Pagination of the data-set table *)
(* ===================================================================== *)

Lemma page_run_succ (first : Z) (count : nat) :
  page_run first (S count) = first :: page_run (first + 1) count.
Proof.
  unfold page_run. simpl. rewrite Z.add_0_r. f_equal.
  rewrite <- seq_shift, map_map. apply map_ext. intros k. lia.
Qed.

Lemma page_run_In (first : Z) (count : nat) (p : Z) :
  In p (page_run first count) <-> first <= p < first + Z.of_nat count.
Proof.
  unfold page_run. rewrite in_map_iff. split.
  - intros [k [<- Hk]]. apply in_seq in Hk. lia.
  - intros H. exists (Z.to_nat (p - first)). split; [lia|].
    apply in_seq. lia.
Qed.

Lemma push_pages_run (steps : nat) :
  forall i to pages,
    steps = Z.to_nat (to + 1 - i) ->
    AdminDashboard.push_pages steps i to pages = pages ++ page_run i steps.
Proof.
  induction steps as [|steps IH]; intros i to pages Hsteps; simpl.
  - rewrite app_nil_r. reflexivity.
  - destruct (Z.leb_spec i to) as [Hle|Hgt]; [|lia].
    rewrite IH by lia. rewrite page_run_succ, <- app_assoc. reflexivity.
Qed.

Lemma push_range_run (from to : Z) :
  AdminDashboard.push_range from to []
  = page_run from (Z.to_nat (to + 1 - from)).
Proof.
  unfold AdminDashboard.push_range. apply push_pages_run. reflexivity.
Qed.

(** What [getPageNumbers] returns. *)
Lemma getPageNumbers_run (currentPage totalPages : Z) :
  exists first,
    AdminDashboard.getPageNumbers currentPage totalPages
    = page_run first (Z.to_nat (Z.min totalPages 5))
    /\ (0 < totalPages -> 1 <= first /\ first + Z.min totalPages 5 - 1 <= totalPages)
    /\ (1 <= currentPage <= totalPages ->
        first <= currentPage < first + Z.min totalPages 5).
Proof.
  unfold AdminDashboard.getPageNumbers, AdminDashboard.maxVisiblePages.
  change (5 / 2) with 2.
  destruct (Z.leb_spec totalPages 5) as [Hsmall|Hlarge].
  - exists 1. rewrite push_range_run.
    replace (totalPages + 1 - 1) with totalPages by lia.
    replace (Z.min totalPages 5) with totalPages by lia.
    repeat split; lia.
  - set (start0 := Z.max 1 (currentPage - 2)).
    set (endPage := Z.min totalPages (start0 + 5 - 1)).
    destruct (Z.ltb_spec (endPage - start0) (5 - 1)) as [Hshort|Hfull].
    + exists (Z.max 1 (endPage - 5 + 1)). rewrite push_range_run.
      replace (Z.min totalPages 5) with 5 by lia.
      split; [f_equal; unfold endPage, start0 in *; lia|].
      unfold endPage, start0 in *. split; lia.
    + exists start0. rewrite push_range_run.
      replace (Z.min totalPages 5) with 5 by lia.
      split; [f_equal; unfold endPage, start0 in *; lia|].
      unfold endPage, start0 in *. split; lia.
Qed.

Lemma getPageNumbers_in_range (currentPage totalPages p : Z) :
  In p (AdminDashboard.getPageNumbers currentPage totalPages) ->
  1 <= p <= totalPages.
Proof.
  destruct (getPageNumbers_run currentPage totalPages)
    as [first [Hrun [Hbounds _]]].
  rewrite Hrun. intros Hp. apply page_run_In in Hp.
  destruct (Z.ltb_spec 0 totalPages) as [Hpos|Hnone]; [|lia].
  specialize (Hbounds Hpos). lia.
Qed.

(** X12.  The page buttons are consecutive page numbers in ascending
    order, five of them or as many as there are pages if fewer; all lie
    between 1 and the last page, and the current page is among them
    whenever it is a page. *)
Theorem page_buttons_are_a_window (currentPage totalPages : Z) :
  let pages := AdminDashboard.getPageNumbers currentPage totalPages in
  (exists first, pages = page_run first (Z.to_nat (Z.min totalPages 5)))
  /\ (forall p, In p pages -> 1 <= p <= totalPages)
  /\ (1 <= currentPage <= totalPages -> In currentPage pages)
  /\ (totalPages <= 0 -> pages = []).
Proof.
  intros pages. unfold pages.
  destruct (getPageNumbers_run currentPage totalPages)
    as [first [Hrun [Hbounds Hcurrent]]].
  split; [eauto|]. rewrite Hrun. split; [|split].
  - intros p Hp. apply page_run_In in Hp.
    destruct (Z.ltb_spec 0 totalPages) as [Hpos|Hnone]; [|lia].
    specialize (Hbounds Hpos). lia.
  - intros Hc. apply page_run_In. specialize (Hcurrent Hc). lia.
  - intros Hnone. replace (Z.to_nat (Z.min totalPages 5)) with 0%nat by lia.
    reflexivity.
Qed.

Lemma page_buttons_are_a_window_witness :
  AdminDashboard.getPageNumbers 9 10 = [6; 7; 8; 9; 10]
  /\ In 9 (AdminDashboard.getPageNumbers 9 10).
Proof.
  split; [reflexivity|].
  apply (page_buttons_are_a_window 9 10). lia.
Defined.

(** X13.  On a page that has rows the line "Showing a to b of n" names a
    non-empty range of at most seven rows inside 1..n, seven when the
    page is full, and the range of the next page starts right after it;
    on a page past the last row the range is empty, its start beyond its
    end. *)
Theorem shown_rows_form_a_range (currentPage totalItems : Z) :
  let first := AdminDashboard.startItem currentPage in
  let last := AdminDashboard.endItem currentPage totalItems in
  (1 <= currentPage -> first <= totalItems ->
   1 <= first <= last /\ last <= totalItems /\ last - first + 1 <= 7
   /\ (currentPage * 7 <= totalItems -> last - first + 1 = 7)
   /\ last < AdminDashboard.startItem (currentPage + 1))
  /\ (totalItems < first -> last < first).
Proof.
  unfold AdminDashboard.startItem, AdminDashboard.endItem,
    AdminDashboard.itemsPerPage.
  split; intros; lia.
Qed.

Lemma shown_rows_form_a_range_witness :
  AdminDashboard.startItem 3 = 15 /\ AdminDashboard.endItem 3 17 = 17
  /\ 15 <= AdminDashboard.endItem 3 17.
Proof.
  split; [reflexivity|]. split; [reflexivity|].
  destruct (shown_rows_form_a_range 3 17) as [H _].
  apply H; vm_compute; discriminate.
Defined.

Lemma page_step_in_range (totalPages p q : Z) :
  1 <= p <= totalPages -> page_step totalPages p q -> 1 <= q <= totalPages.
Proof.
  intros Hp Hstep. destruct Hstep as [p Hen|p Hen|p q Hq|p rows|p].
  - unfold AdminDashboard.previousPage. lia.
  - unfold AdminDashboard.nextPage. lia.
  - eapply getPageNumbers_in_range. eassumption.
  - unfold AdminDashboard.page_after_delete.
    destruct (rows =? 1); simpl; [|lia].
    destruct (Z.ltb_spec 1 p); lia.
  - unfold AdminDashboard.page_after_create. lia.
Qed.

(** X14.  Between two reloads of the table the current page never leaves
    the pages that exist: clicking Previous, Next or a page button, a
    confirmed deletion and a creation each lead from a page between 1 and
    the last page to such a page, however many of them follow each
    other. *)
Theorem current_page_stays_in_range (totalPages p q : Z) :
  1 <= p <= totalPages -> page_steps totalPages p q -> 1 <= q <= totalPages.
Proof.
  intros Hp Hsteps. induction Hsteps as [p|p q r Hstep Hsteps IH].
  - assumption.
  - apply IH. eapply page_step_in_range; eassumption.
Qed.

Lemma current_page_stays_in_range_witness :
  1 <= AdminDashboard.page_after_delete 1
         (AdminDashboard.nextPage (AdminDashboard.nextPage 1 3) 3) <= 3.
Proof.
  apply (current_page_stays_in_range 3 1); [lia|].
  eapply steps_more; [apply step_next; reflexivity|].
  eapply steps_more; [apply step_next; reflexivity|].
  eapply steps_more; [apply (step_delete 3 3 1)|].
  apply steps_none.
Defined.

(* ===================================================================== *)
(** ** The users offered for a new data set *)
(* ===================================================================== *)

Lemma findIndex_from_first {A} (p : A -> bool) (pre : list A) (a : A)
      (post : list A) (i : Z) :
  p a = true ->
  (AdminDashboard.findIndex_from p i (pre ++ a :: post)
   =? i + Z.of_nat (List.length pre))
  = negb (existsb p pre).
Proof.
  intros Ha. revert i. induction pre as [|b pre IH]; intros i; simpl.
  - rewrite Ha. rewrite Z.add_0_r. apply Z.eqb_refl.
  - destruct (p b) eqn:Eb; simpl.
    + apply Z.eqb_neq. lia.
    + rewrite <- IH with (i := i + 1). f_equal. lia.
Qed.

Lemma seen_ids (u : AdminDashboard.User) (pre : list AdminDashboard.User) :
  existsb (fun v => (AdminDashboard._id v =? AdminDashboard._id u)%string) pre
  = existsb (String.eqb (AdminDashboard._id u)) (map AdminDashboard._id pre).
Proof.
  induction pre as [|v pre IH]; simpl; [reflexivity|].
  rewrite IH, (String.eqb_sym (AdminDashboard._id v)). reflexivity.
Qed.

Lemma existsb_perm_ids (k : string) (l1 l2 : list string) :
  (forall a, In a l1 <-> In a l2) ->
  existsb (String.eqb k) l1 = existsb (String.eqb k) l2.
Proof.
  intros H. destruct (existsb (String.eqb k) l1) eqn:E1;
    destruct (existsb (String.eqb k) l2) eqn:E2; try reflexivity.
  - apply seen_In in E1. apply H in E1. apply seen_In in E1. congruence.
  - apply seen_In in E2. apply H in E2. apply seen_In in E2. congruence.
Qed.

Lemma first_by_id_ext (l : list AdminDashboard.User) :
  forall seen1 seen2,
    (forall a, In a seen1 <-> In a seen2) ->
    first_by_id seen1 l = first_by_id seen2 l.
Proof.
  induction l as [|u l IH]; intros seen1 seen2 H; simpl; [reflexivity|].
  rewrite (existsb_perm_ids _ seen1 seen2 H).
  destruct (existsb (String.eqb (AdminDashboard._id u)) seen2).
  - apply IH. assumption.
  - f_equal. apply IH. intros a. simpl. rewrite H. tauto.
Qed.

(** The filter on first positions keeps the first user of each id. *)
Lemma getUniqueUsers_first_by_id (payments : list AdminDashboard.Payment) :
  AdminDashboard.getUniqueUsers payments
  = first_by_id [] (map AdminDashboard.userId payments).
Proof.
  unfold AdminDashboard.getUniqueUsers, AdminDashboard.findIndex.
  set (users := map AdminDashboard.userId payments).
  assert (H : forall pre l,
             users = pre ++ l ->
             AdminDashboard.filter_from
               (fun user index =>
                  index =? AdminDashboard.findIndex_from
                             (fun u => (AdminDashboard._id u
                                        =? AdminDashboard._id user)%string)
                             0 users)
               (Z.of_nat (List.length pre)) l
             = first_by_id (map AdminDashboard._id pre) l).
  { intros pre l. revert pre. induction l as [|u l IH]; intros pre E; simpl;
      [reflexivity|].
    rewrite E at 1. rewrite Z.eqb_sym.
    rewrite (findIndex_from_first _ pre u l 0) by apply String.eqb_refl.
    rewrite seen_ids.
    assert (E' : users = (pre ++ [u]) ++ l) by (rewrite <- app_assoc; exact E).
    specialize (IH (pre ++ [u]) E').
    rewrite length_app in IH. simpl in IH.
    replace (Z.of_nat (List.length pre) + 1)
      with (Z.of_nat (List.length pre + 1)) by lia.
    rewrite IH.
    destruct (existsb (String.eqb (AdminDashboard._id u))
                      (map AdminDashboard._id pre)) eqn:Eseen; simpl.
    - apply first_by_id_ext. intros a. rewrite map_app, in_app_iff. simpl.
      apply seen_In in Eseen. split; [|tauto].
      intros [?|[<-|[]]]; assumption.
    - f_equal. apply first_by_id_ext. intros a.
      rewrite map_app, in_app_iff. simpl. tauto. }
  apply (H [] users). reflexivity.
Qed.

Lemma first_by_id_ids (l : list AdminDashboard.User) :
  forall seen k,
    In k (map AdminDashboard._id (first_by_id seen l))
    <-> In k (map AdminDashboard._id l) /\ ~ In k seen.
Proof.
  induction l as [|u l IH]; intros seen k; simpl; [tauto|].
  destruct (existsb (String.eqb (AdminDashboard._id u)) seen) eqn:E.
  - apply seen_In in E. rewrite IH. split; [tauto|].
    intros [[<-|H] Hn]; tauto.
  - assert (Hu : ~ In (AdminDashboard._id u) seen).
    { intros H. apply seen_In in H. congruence. }
    simpl. rewrite IH. simpl.
    destruct (string_dec (AdminDashboard._id u) k) as [<-|Hne]; [tauto|].
    tauto.
Qed.

Lemma first_by_id_NoDup (l : list AdminDashboard.User) :
  forall seen, NoDup (map AdminDashboard._id (first_by_id seen l)).
Proof.
  induction l as [|u l IH]; intros seen; simpl; [constructor|].
  destruct (existsb (String.eqb (AdminDashboard._id u)) seen); [apply IH|].
  simpl. constructor; [|apply IH].
  rewrite first_by_id_ids. simpl. tauto.
Qed.

Lemma first_by_id_subsequence (l : list AdminDashboard.User) :
  forall seen, subsequence (first_by_id seen l) l.
Proof.
  induction l as [|u l IH]; intros seen; simpl; [constructor|].
  destruct (existsb (String.eqb (AdminDashboard._id u)) seen).
  - apply subsequence_skip, IH.
  - apply subsequence_keep, IH.
Qed.

Lemma first_by_id_find (l : list AdminDashboard.User) :
  forall seen u,
    In u (first_by_id seen l) ->
    find (fun v => (AdminDashboard._id v =? AdminDashboard._id u)%string) l
    = Some u.
Proof.
  induction l as [|w l IH]; intros seen u; simpl; [tauto|].
  destruct (existsb (String.eqb (AdminDashboard._id w)) seen) eqn:E.
  - intros H. destruct (String.eqb_spec (AdminDashboard._id w)
                                         (AdminDashboard._id u)) as [Eid|_].
    + exfalso. apply seen_In in E.
      assert (Hk : In (AdminDashboard._id u)
                      (map AdminDashboard._id (first_by_id seen l)))
        by (apply in_map; assumption).
      apply first_by_id_ids in Hk. rewrite <- Eid in Hk. tauto.
    + eapply IH. eassumption.
  - intros [->|H]; [rewrite String.eqb_refl; reflexivity|].
    destruct (String.eqb_spec (AdminDashboard._id w)
                              (AdminDashboard._id u)) as [Eid|_].
    + exfalso.
      assert (Hk : In (AdminDashboard._id u)
                      (map AdminDashboard._id
                           (first_by_id (AdminDashboard._id w :: seen) l)))
        by (apply in_map; assumption).
      apply first_by_id_ids in Hk. simpl in Hk. tauto.
    + eapply IH. eassumption.
Qed.

(** X15.  The users offered when a data set is created are the paying
    users without repetition: every id that occurs in the payments occurs
    exactly once, the users stand in the order of their first payment,
    and the entry kept for an id is that of its first payment. *)
Theorem unique_users_are_first_payers (payments : list AdminDashboard.Payment) :
  let users := map AdminDashboard.userId payments in
  let offered := AdminDashboard.getUniqueUsers payments in
  NoDup (map AdminDashboard._id offered)
  /\ (forall k, In k (map AdminDashboard._id offered)
                <-> In k (map AdminDashboard._id users))
  /\ subsequence offered users
  /\ (forall u,
        In u offered ->
        find (fun v => (AdminDashboard._id v =? AdminDashboard._id u)%string)
             users
        = Some u).
Proof.
  intros users offered. unfold offered.
  rewrite getUniqueUsers_first_by_id. fold users.
  split; [apply first_by_id_NoDup|].
  split; [intros k; rewrite first_by_id_ids; simpl; tauto|].
  split; [apply first_by_id_subsequence|].
  intros u. apply first_by_id_find.
Qed.

Lemma unique_users_are_first_payers_witness :
  map AdminDashboard.companyName (AdminDashboard.getUniqueUsers scenario_payments)
  = ["Engines"; "Machines"]
  /\ find (fun v => (AdminDashboard._id v =? "u1")%string)
          (map AdminDashboard.userId scenario_payments)
     = Some (AdminDashboard.mkUser "u1" "Ada" "Byron" "ada@example.org" "Engines").
Proof.
  split; [reflexivity|].
  destruct (unique_users_are_first_payers scenario_payments) as [_ [_ [_ H]]].
  apply (H (AdminDashboard.mkUser "u1" "Ada" "Byron" "ada@example.org" "Engines")).
  left. reflexivity.
Defined.

(* ===================================================================== *)
(** ** Breadcrumbs *)
(* ===================================================================== *)

Lemma upper_ascii_not_slash (c : ascii) :
  c <> "/"%char -> Banner.upper_ascii c <> "/"%char.
Proof.
  destruct c as [[] [] [] [] [] [] [] []]; vm_compute; congruence.
Qed.

Lemma split_slash_free (s : string) :
  Forall slash_free (Banner.split "/"%char s).
Proof.
  induction s as [|c s IH]; simpl.
  - constructor; [exact I|constructor].
  - destruct (Ascii.eqb_spec c "/"%char) as [->|Hc].
    + constructor; [exact I|assumption].
    + destruct (Banner.split "/"%char s) as [|seg rest].
      * constructor; [simpl; tauto|constructor].
      * inversion IH; subst. constructor; [simpl; tauto|assumption].
Qed.

Lemma capitalize_keeps (seg : string) :
  seg <> "" -> slash_free seg ->
  Banner.capitalize seg <> "" /\ slash_free (Banner.capitalize seg)
  /\ String.length (Banner.capitalize seg) = String.length seg.
Proof.
  destruct seg as [|c rest]; [congruence|]. simpl.
  intros _ [Hc Hrest]. split; [discriminate|]. split; [|reflexivity].
  split; [apply upper_ascii_not_slash; assumption|assumption].
Qed.

Lemma nonempty_spec (s : string) : Banner.nonempty s = true <-> s <> "".
Proof.
  unfold Banner.nonempty. rewrite negb_true_iff. apply String.eqb_neq.
Qed.

(** X16.  The breadcrumb trail of any path name starts with "Home", and
    every crumb after it is a non-empty piece of the path without a slash:
    empty segments, as a leading, trailing or doubled slash leaves them,
    give no crumb, and the root path gives "Home" alone. *)
Theorem breadcrumbs_start_at_home (pathname : string) :
  exists crumbs,
    Banner.getBreadcrumbs pathname = "Home" :: crumbs
    /\ Forall (fun crumb => crumb <> "" /\ slash_free crumb) crumbs
    /\ List.length crumbs
       = List.length (filter Banner.nonempty (Banner.split "/"%char pathname))
    /\ (slash_free pathname -> pathname <> "" ->
        crumbs = [Banner.capitalize pathname]).
Proof.
  unfold Banner.getBreadcrumbs.
  set (segments := filter Banner.nonempty (Banner.split "/"%char pathname)).
  assert (Hsegments : Forall (fun seg => seg <> "" /\ slash_free seg) segments).
  { apply Forall_forall. intros seg Hseg. apply filter_In in Hseg.
    destruct Hseg as [Hin Hne]. apply nonempty_spec in Hne.
    pose proof (split_slash_free pathname) as Hfree.
    rewrite Forall_forall in Hfree. auto. }
  assert (Hone : slash_free pathname -> pathname <> "" -> segments = [pathname]).
  { intros Hfree Hne. unfold segments.
    assert (Hsplit : Banner.split "/"%char pathname = [pathname]).
    { clear - Hfree. induction pathname as [|c s IH]; [reflexivity|].
      destruct Hfree as [Hc Hs]. simpl.
      destruct (Ascii.eqb_spec c "/"%char); [congruence|].
      rewrite (IH Hs). reflexivity. }
    rewrite Hsplit. simpl.
    apply nonempty_spec in Hne. rewrite Hne. reflexivity. }
  exists (map Banner.capitalize segments). split.
  - destruct segments; reflexivity.
  - split; [|split].
    + apply Forall_forall. intros crumb Hcrumb.
      apply in_map_iff in Hcrumb. destruct Hcrumb as [seg [<- Hseg]].
      rewrite Forall_forall in Hsegments. destruct (Hsegments seg Hseg) as [Hne Hfree].
      destruct (capitalize_keeps seg Hne Hfree) as [H1 [H2 _]]. tauto.
    + apply length_map.
    + intros Hfree Hne. rewrite (Hone Hfree Hne). reflexivity.
Qed.

Lemma breadcrumbs_start_at_home_witness :
  Banner.getBreadcrumbs "solution" = ["Home"; "Solution"].
Proof.
  destruct (breadcrumbs_start_at_home "solution")
    as [crumbs [Hcrumbs [_ [_ Hone]]]].
  rewrite Hcrumbs. f_equal. apply Hone.
  - vm_compute. repeat split; discriminate.
  - discriminate.
Defined.

Lemma append_empty (s : string) : (s ++ "")%string = s.
Proof.
  induction s as [|c s IH]; simpl; [reflexivity|]. rewrite IH. reflexivity.
Qed.

Lemma split_segment (seg rest : string) :
  slash_free seg ->
  Banner.split "/"%char (seg ++ String "/"%char rest)
  = seg :: Banner.split "/"%char rest.
Proof.
  induction seg as [|c seg IH]; simpl.
  - reflexivity.
  - intros [Hc Hseg]. destruct (Ascii.eqb_spec c "/"%char); [congruence|].
    rewrite (IH Hseg). reflexivity.
Qed.

Lemma split_whole (seg : string) :
  slash_free seg -> Banner.split "/"%char seg = [seg].
Proof.
  induction seg as [|c seg IH]; simpl; [reflexivity|].
  intros [Hc Hseg]. destruct (Ascii.eqb_spec c "/"%char); [congruence|].
  rewrite (IH Hseg). reflexivity.
Qed.

Lemma path_of_cons (seg : string) (segments : list string) :
  path_of (seg :: segments) = String "/"%char (seg ++ path_of segments).
Proof.
  reflexivity.
Qed.

Lemma split_path_of (segments : list string) :
  Forall slash_free segments ->
  forall seg,
    slash_free seg ->
    Banner.split "/"%char (seg ++ path_of segments) = seg :: segments.
Proof.
  induction 1 as [|next segments Hnext Hrest IH]; intros seg Hseg.
  - simpl. rewrite append_empty. apply split_whole. assumption.
  - rewrite path_of_cons, split_segment by assumption.
    rewrite IH by assumption. reflexivity.
Qed.

(** X17.  For a path made of segments that are not empty and hold no
    slash, each behind one slash, the crumbs after "Home" are these
    segments in order, each with its first letter in upper case and the
    rest as it is; a slash at the end of the path changes nothing. *)
Theorem breadcrumbs_follow_the_path (segments : list string) :
  Forall (fun seg => seg <> "" /\ slash_free seg) segments ->
  Banner.getBreadcrumbs (path_of segments)
  = "Home" :: map Banner.capitalize segments
  /\ Banner.getBreadcrumbs (path_of segments ++ "/")
     = "Home" :: map Banner.capitalize segments
  /\ (forall seg, In seg segments ->
                  exists c rest,
                    seg = String c rest
                    /\ Banner.capitalize seg = String (Banner.upper_ascii c) rest).
Proof.
  intros Hsegments.
  assert (Hfree : Forall slash_free segments).
  { eapply Forall_impl; [|exact Hsegments]. simpl. tauto. }
  assert (Hkeep : filter Banner.nonempty segments = segments).
  { clear Hfree. induction Hsegments as [|seg segments [Hne _] _ IH];
      simpl; [reflexivity|].
    apply nonempty_spec in Hne. rewrite Hne, IH. reflexivity. }
  assert (Hcrumbs : forall l,
             filter Banner.nonempty l = segments ->
             (if (List.length (filter Banner.nonempty l) =? 0)%nat
              then ["Home"]
              else "Home" :: map Banner.capitalize (filter Banner.nonempty l))
             = "Home" :: map Banner.capitalize segments).
  { intros l ->. destruct segments; reflexivity. }
  split; [|split].
  - unfold Banner.getBreadcrumbs. apply Hcrumbs.
    destruct segments as [|seg segments]; [reflexivity|].
    rewrite path_of_cons. simpl Banner.split. inversion Hfree; subst.
    rewrite split_path_of by assumption. simpl. assumption.
  - unfold Banner.getBreadcrumbs. apply Hcrumbs.
    destruct segments as [|seg segments]; [reflexivity|].
    assert (Happ : (path_of (seg :: segments) ++ "/")%string
                   = path_of ((seg :: segments) ++ [""])).
    { generalize (seg :: segments). intros l.
      induction l as [|a l IH]; simpl; [reflexivity|].
      rewrite <- IH. f_equal.
      clear. induction a as [|c a IHa]; simpl; [reflexivity|].
      rewrite IHa. reflexivity. }
    rewrite Happ. simpl app. rewrite path_of_cons. simpl Banner.split.
    inversion Hfree; subst.
    rewrite split_path_of;
      [|apply Forall_app; split; [assumption|repeat constructor]|assumption].
    simpl. rewrite filter_app. simpl. rewrite app_nil_r. assumption.
  - intros seg Hseg. rewrite Forall_forall in Hsegments.
    destruct (Hsegments seg Hseg) as [Hne _].
    destruct seg as [|c rest]; [congruence|]. eauto.
Qed.

Lemma breadcrumbs_follow_the_path_witness :
  Banner.getBreadcrumbs "/dashboard/data-sets"
  = ["Home"; "Dashboard"; "Data-sets"].
Proof.
  destruct (breadcrumbs_follow_the_path ["dashboard"; "data-sets"]) as [H _].
  - repeat constructor; try discriminate; vm_compute; repeat split; discriminate.
  - exact H.
Defined.
